(** * playcardz: the storefront's request handlers (src/main.py)

    A shallow embedding of the Flask application in [src/main.py]: the
    three tables the handlers touch (User, Category, Product), the
    session, the flash queue, and the nine route handlers, followed by the
    properties of the specification.

    What lies outside the repository is modelled as follows.
    - The database is the default one, SQLite.  A table is the list of
      its rows in rowid order; [commit] replaces the tables; a statement
      that fails (NOT NULL, a value the column type cannot bind) aborts
      the request with status 500 and leaves the tables as they were.
    - [werkzeug.security] is modelled on its storage format
      [method$salt$digest]; the digest primitive itself is a parameter
      ([hash_internal]).
    - Flask-SQLAlchemy's [paginate] is modelled with its default
      [error_out=True].
    - SQLite's integers have 64 bits: the driver raises when it is handed
      an integer outside them, which ends the request with status 500.
    - Templates are not rendered: a rendered page is the template's name
      together with the values handed to it.
    - [datetime.utcnow()] and the random salt are inputs of a request
      ([Env]).
    - A request is one the URL map hands to the view, with a method the
      route allows.

    The tables Review, Order, OrderDetail and Discount, which no handler
    reads or writes, are left out. *)

From Stdlib Require Import ZArith QArith List String Ascii Bool Lia.
From Stdlib Require Import Sorting.Sorted Sorting.Permutation.
Import ListNotations.

Open Scope string_scope.
Open Scope Z_scope.
Open Scope list_scope.

(** ** Models (main.py:21-49) *)

(** What an INTEGER column holds when the application hands it text:
    SQLite turns the text of an integer into that integer and keeps any
    other text as it is. *)
Inductive cell : Type :=
| CInt (z : Z)
| CText (s : string).

Module User.
Record t : Type := mk {
  id : Z;
  username : string;
  email : string;
  password : string;
  first_name : option string;
  last_name : option string;
  is_admin : bool;
  loyalty_points : Z;
  created_at : Z;
  last_login : option Z
}.

Definition set_last_login (u : t) (now : Z) : t :=
  mk (id u) (username u) (email u) (password u) (first_name u)
     (last_name u) (is_admin u) (loyalty_points u) (created_at u)
     (Some now).
End User.

Module Category.
Record t : Type := mk {
  id : Z;
  name : string;
  description : option string
}.
End Category.

Module Product.
Record t : Type := mk {
  id : Z;
  name : string;
  description : option string;
  price : Q;
  file_path : option string;
  thumbnail : option string;
  category_id : option cell;
  is_active : bool;
  created_at : Z
}.
End Product.

(** The tables behind [db]. *)
Module Db.
Record t : Type := mk {
  users : list User.t;
  categories : list Category.t;
  products : list Product.t
}.
End Db.

(** ** Request, session, responses *)

Inductive Method : Type := GET | POST.

(** [arg_category] is [request.args.get('category', type=int)] and
    [arg_page] is [request.args.get('page', type=int)]: the integer the
    query string carries, [None] when the parameter is absent or is not
    an integer.  [form] is [request.form]. *)
Record Request : Type := mkRequest {
  method : Method;
  arg_category : option Z;
  arg_page : option Z;
  form : list (string * string)
}.

(** [request.form.get(key)]: the first value under [key], else [None]. *)
Fixpoint form_get (f : list (string * string)) (key : string) : option string :=
  match f with
  | [] => None
  | (k, v) :: rest => if String.eqb k key then Some v else form_get rest key
  end.

(** What a request draws from outside: the clock and the random choices
    of the salt generator. *)
Record Env : Type := mkEnv {
  utcnow : Z;
  choice : nat -> nat
}.

Module Session.
Record t : Type := mk {
  user_id : option Z;
  cart : option (list Z)
}.
End Session.

Record World : Type := mkWorld {
  db : Db.t;
  session : Session.t;
  flashes : list (string * string)
}.

Inductive Endpoint : Type :=
| ep_index | ep_login | ep_register | ep_admin_dashboard | ep_admin_products.

(** [Product.query...paginate(...)]: the page object. *)
Record Pagination : Type := mkPagination {
  items : list Product.t;
  page : Z;
  per_page : nat;
  total : nat
}.

(** A template with the values it is rendered with. *)
Inductive Page : Type :=
| index_html (featured_products : list Product.t) (categories : list Category.t)
| products_html (products : Pagination) (title : string)
| product_detail_html (product : Product.t) (related_products : list Product.t)
| login_html
| register_html
| admin_dashboard_html
| admin_products_html (products : list Product.t)
| admin_add_product_html (categories : list Category.t).

Inductive Response : Type :=
| render_template (p : Page)
| redirect (e : Endpoint).

(** ** The handler monad: state with abort *)

Inductive Outcome (A : Type) : Type :=
| Ok (a : A)
| Abort (status : Z).
Arguments Ok {A} a.
Arguments Abort {A} status.

Definition App (A : Type) : Type := World -> Outcome A * World.

Definition ret {A} (a : A) : App A := fun w => (Ok a, w).

Definition bind {A B} (m : App A) (k : A -> App B) : App B :=
  fun w =>
    match m w with
    | (Ok a, w') => k a w'
    | (Abort s, w') => (Abort s, w')
    end.

Declare Scope app_scope.
Delimit Scope app_scope with app.
Bind Scope app_scope with App.
Notation "x <- m ;; k" := (bind m (fun x => k))
  (at level 61, m at next level, right associativity) : app_scope.
Notation "m ;; k" := (bind m (fun _ => k))
  (at level 61, right associativity) : app_scope.
Open Scope app_scope.

Definition abort {A} (status : Z) : App A := fun w => (Abort status, w).

Definition get_db : App Db.t := fun w => (Ok (db w), w).

Definition get_session : App Session.t := fun w => (Ok (session w), w).

Definition set_session (s : Session.t) : App unit :=
  fun w => (Ok tt, mkWorld (db w) s (flashes w)).

(** [db.session.commit()] with the tables as the pending changes leave
    them. *)
Definition commit (d : Db.t) : App unit :=
  fun w => (Ok tt, mkWorld d (session w) (flashes w)).

Definition flash (message category : string) : App unit :=
  fun w => (Ok tt, mkWorld (db w) (session w) (flashes w ++ [(message, category)])).

(** ** Queries *)

Definition User_get (d : Db.t) (uid : Z) : option User.t :=
  find (fun u => User.id u =? uid) (Db.users d).

Definition Category_get (d : Db.t) (cid : Z) : option Category.t :=
  find (fun c => Category.id c =? cid) (Db.categories d).

Definition Product_get (d : Db.t) (pid : Z) : option Product.t :=
  find (fun p => Product.id p =? pid) (Db.products d).

(** The integers SQLite holds, and the driver binds: 64 bits, signed. *)
Definition fits (z : Z) : bool := (- 2 ^ 63 <=? z) && (z <? 2 ^ 63).

(** [Model.query.get_or_404(ident)], [row] being the row with primary key
    [ident], if any.  No row has a key outside SQLite's integers; handed
    such a key, the driver raises [OverflowError] instead of looking it
    up. *)
Definition get_or_404 {A} (row : option A) (ident : Z) : App A :=
  match row with
  | Some r => ret r
  | None => if fits ident then abort 404 else abort 500
  end.

Definition cell_eqb (a b : cell) : bool :=
  match a, b with
  | CInt x, CInt y => x =? y
  | CText s, CText t => String.eqb s t
  | _, _ => false
  end.

(** [Product.category_id == v] as SQLAlchemy emits it: [IS NULL] against
    [None], [=] otherwise. *)
Definition category_id_eq (v : option cell) (p : Product.t) : bool :=
  match v, Product.category_id p with
  | None, None => true
  | Some a, Some b => cell_eqb b a
  | _, _ => false
  end.

(** [order_by(Product.created_at.desc())]. *)
Fixpoint insert_desc (p : Product.t) (l : list Product.t) : list Product.t :=
  match l with
  | [] => [p]
  | q :: l' =>
      if Product.created_at q <=? Product.created_at p
      then p :: q :: l'
      else q :: insert_desc p l'
  end.

Fixpoint order_by_created_at_desc (l : list Product.t) : list Product.t :=
  match l with
  | [] => []
  | p :: l' => insert_desc p (order_by_created_at_desc l')
  end.

(** [query.limit(per_page).offset((page - 1) * per_page).all()]. *)
Definition page_items (q : list Product.t) (page : Z) (per_page : nat) : list Product.t :=
  firstn per_page (skipn (Z.to_nat (page - 1) * per_page) q).

(** [query.paginate(page=page, per_page=per_page)], [q] being the rows
    the query selects and [params] the integers it compares columns
    with: 404 for a page below 1 and for an empty page other than the
    first.  The query binds [params] and the offset
    [(page - 1) * per_page]; when one of them is outside SQLite's
    integers the driver raises [OverflowError].  Rows never reach such an
    offset or hold such a value, so the page is then an empty one. *)
Definition paginate (q : list Product.t) (params : list Z) (page : Z) (per_page : nat)
    : App Pagination :=
  if page <? 1 then abort 404
  else
    let items := page_items q page per_page in
    match items with
    | [] => if negb (forallb fits (((page - 1) * Z.of_nat per_page) :: params))
            then abort 500
            else if page =? 1
            then ret (mkPagination items page per_page (List.length q))
            else abort 404
    | _ :: _ => ret (mkPagination items page per_page (List.length q))
    end.

(** The next primary key of a table, as SQLite gives it: 1 in an empty
    table, one more than the largest key otherwise.  (At the largest key
    SQLite holds, it picks an unused key at random instead; the handlers
    alone never fill a table that far, and this is not modelled.) *)
Definition next_id (ids : list Z) : Z :=
  match ids with
  | [] => 1
  | x :: rest => 1 + fold_right Z.max x rest
  end.

(** ** Column conversions *)

Definition digit_of (c : ascii) : option Z :=
  let n := nat_of_ascii c in
  if (48 <=? n)%nat && (n <=? 57)%nat then Some (Z.of_nat (n - 48)) else None.

(** Reads the digits at the head of [s]: their value, how many there
    are, and what follows them. *)
Fixpoint read_digits (s : string) (acc : Z) (n : nat) : Z * nat * string :=
  match s with
  | String c s' =>
      match digit_of c with
      | Some d => read_digits s' (10 * acc + d) (S n)
      | None => (acc, n, s)
      end
  | EmptyString => (acc, n, s)
  end.

Definition unsigned_decimal (s : string) : option Q :=
  let '(i, ni, r) := read_digits s 0 0 in
  match r with
  | EmptyString => if (0 <? ni)%nat then Some (i # 1) else None
  | String c r' =>
      if Ascii.eqb c "."%char then
        let '(f, nf, r'') := read_digits r' 0 0 in
        match r'' with
        | EmptyString =>
            if (0 <? ni + nf)%nat
            then Some ((i * 10 ^ Z.of_nat nf + f) # Z.to_pos (10 ^ Z.of_nat nf))
            else None
        | String _ _ => None
        end
      else None
  end.

(** The Float column binds its value with Python's [float()].  This is
    [float()] on the plain decimal literals: a sign, digits and an
    optional fraction.  The number is kept as it is written; it is the
    number the column stores when a double holds it exactly
    ([double_holds]), and the column stores the nearest double
    otherwise.  The other spellings [float()] accepts (exponents, blanks
    around the number, underscores, inf, nan, digits outside ASCII) are
    not modelled and read as text [float()] rejects. *)
Definition to_float (s : string) : option Q :=
  match s with
  | String c s' =>
      if Ascii.eqb c "-"%char then option_map Qopp (unsigned_decimal s')
      else if Ascii.eqb c "+"%char then unsigned_decimal s'
      else unsigned_decimal s
  | EmptyString => None
  end.

(** Numbers a double holds exactly: in lowest terms the denominator is
    a power of two no larger than 2^1074 and the numerator is below 2^53
    in absolute value.  (Doubles hold other numbers too, such as the
    multiples of a power of two above 2^53; these are enough here.) *)
Definition double_holds (q : Q) : bool :=
  let r := Qred q in
  (Z.abs (Qnum r) <? 2 ^ 53)
  && (Z.pos (Qden r) =? 2 ^ Z.log2 (Z.pos (Qden r)))
  && (Z.log2 (Z.pos (Qden r)) <=? 1074).

Definition unsigned_integer (s : string) : option Z :=
  match read_digits s 0 0 with
  | (i, S _, EmptyString) => Some i
  | _ => None
  end.

(** The INTEGER column [category_id] receives the form's text: the text
    of a plain integer that SQLite holds is stored as that integer.
    (SQLite also turns other spellings of an integral number into an
    integer, such as 1.0 or an integer between blanks, and stores other
    numbers as reals; all of those are kept as text here, and no
    statement below depends on them.) *)
Definition to_cell (s : string) : cell :=
  let signed :=
    match s with
    | String c s' =>
        if Ascii.eqb c "-"%char then option_map Z.opp (unsigned_integer s')
        else if Ascii.eqb c "+"%char then unsigned_integer s'
        else unsigned_integer s
    | EmptyString => None
    end in
  match signed with
  | Some z => if fits z then CInt z else CText s
  | None => CText s
  end.

(** ** werkzeug.security *)

Definition dollar : ascii := "$"%char.

(** [s.split("$", 1)] when [s] holds a "$". *)
Fixpoint split_dollar (s : string) : option (string * string) :=
  match s with
  | EmptyString => None
  | String c s' =>
      if Ascii.eqb c dollar then Some (EmptyString, s')
      else
        match split_dollar s' with
        | Some (a, b) => Some (String c a, b)
        | None => None
        end
  end.

(** [method, salt, hashval = pwhash.split("$", 2)]. *)
Definition split_pwhash (pwhash : string) : option (string * string * string) :=
  match split_dollar pwhash with
  | Some (method, rest) =>
      match split_dollar rest with
      | Some (salt, hashval) => Some (method, salt, hashval)
      | None => None
      end
  | None => None
  end.

Definition SALT_CHARS : string :=
  "abcdefghijklmnopqrstuvwxyzABCDEFGHIJKLMNOPQRSTUVWXYZ0123456789".

(** [gen_salt(length)]: [length] characters, each a choice among
    [SALT_CHARS]. *)
Definition gen_salt (choice : nat -> nat) (length : nat) : string :=
  string_of_list_ascii
    (map (fun i => nth (choice i mod 62) (list_ascii_of_string SALT_CHARS) "a"%char)
         (seq 0 length)).

(** Every character of [s] is an ASCII one. *)
Definition is_ascii (s : string) : bool :=
  forallb (fun c => (nat_of_ascii c <? 128)%nat) (list_ascii_of_string s).

Definition join_pwhash (method salt hashval : string) : string :=
  (method ++ String dollar (salt ++ String dollar hashval))%string.

(** ** The texts the handlers show *)

Definition ALL_PRODUCTS_TITLE : string := "جميع المنتجات".
Definition CATEGORY_TITLE_PREFIX : string := "منتجات ".
Definition MSG_INVALID_CREDENTIALS : string := "البريد الإلكتروني أو كلمة المرور غير صحيحة".
Definition MSG_PASSWORD_MISMATCH : string := "كلمات المرور غير متطابقة".
Definition MSG_ALREADY_USED : string := "اسم المستخدم أو البريد الإلكتروني مستخدم بالفعل".
Definition MSG_ACCOUNT_CREATED : string := "تم إنشاء الحساب بنجاح! يمكنك الآن تسجيل الدخول".
Definition MSG_NOT_AUTHORISED : string := "غير مصرح لك بالوصول إلى هذه الصفحة".
Definition MSG_PRODUCT_ADDED : string := "تم إضافة المنتج بنجاح".

(** ** The handlers (main.py:114-262) *)

Section Handlers.

(** The digest of a password under a method and a salt, in hexadecimal;
    [None] where the library raises (a method it does not know). *)
Variable hash_internal : string -> string -> string -> option string.

(** The method [generate_password_hash] uses by default, as it is
    written into the hash string. *)
Variable default_method : string.

(** A raising library call ends the request with status 500. *)
Definition raising {A} (r : option A) : App A :=
  match r with
  | Some a => ret a
  | None => abort 500
  end.

Definition generate_password_hash (env : Env) (password : option string) : App string :=
  match password with
  | Some pw =>
      let salt := gen_salt (choice env) 16 in
      h <- raising (hash_internal default_method salt pw) ;;
      ret (join_pwhash default_method salt h)
  | None => abort 500
  end.

(** [hmac.compare_digest(digest, hashval)] on two strings: it raises
    [TypeError] when one of them holds a character outside ASCII.  The
    digest is hexadecimal, so strings equal to it are ASCII. *)
Definition compare_digest (digest hashval : string) : App bool :=
  if String.eqb digest hashval then ret true
  else if is_ascii digest && is_ascii hashval then ret false
  else abort 500.

Definition check_password_hash (pwhash : string) (password : option string) : App bool :=
  match split_pwhash pwhash with
  | None => ret false
  | Some (method, salt, hashval) =>
      match password with
      | Some pw =>
          h <- raising (hash_internal method salt pw) ;;
          compare_digest h hashval
      | None => abort 500
      end
  end.

(** [Product.query.filter_by(is_active=True)]. *)
Definition active_products (d : Db.t) : list Product.t :=
  filter Product.is_active (Db.products d).

Definition index : App Response :=
  d <- get_db ;;
  let featured_products :=
    firstn 8 (order_by_created_at_desc (active_products d)) in
  let categories := Db.categories d in
  ret (render_template (index_html featured_products categories)).

(** Python's truth value of an optional integer: [None] and 0 are
    false. *)
Definition truthy (v : option Z) : option Z :=
  match v with
  | Some c => if c =? 0 then None else Some c
  | None => None
  end.

Definition products (req : Request) : App Response :=
  let category_id := arg_category req in
  let page := match arg_page req with Some n => n | None => 1 end in
  d <- get_db ;;
  match truthy category_id with
  | Some c =>
      products <- paginate
                    (filter (category_id_eq (Some (CInt c))) (active_products d))
                    [c] page 12 ;;
      category <- get_or_404 (Category_get d c) c ;;
      ret (render_template
             (products_html products (CATEGORY_TITLE_PREFIX ++ Category.name category)%string))
  | None =>
      products <- paginate (active_products d) [] page 12 ;;
      ret (render_template (products_html products ALL_PRODUCTS_TITLE))
  end.

Definition product_detail (product_id : Z) : App Response :=
  d <- get_db ;;
  product <- get_or_404 (Product_get d product_id) product_id ;;
  let related_products :=
    firstn 4
      (filter (fun p => category_id_eq (Product.category_id product) p
                        && negb (Product.id p =? Product.id product)
                        && Product.is_active p)
              (Db.products d)) in
  ret (render_template (product_detail_html product related_products)).

(** [User.query.filter_by(email=email).first()]. *)
Definition User_filter_by_email (d : Db.t) (email : option string) : option User.t :=
  match email with
  | Some e => find (fun u => String.eqb (User.email u) e) (Db.users d)
  | None => None
  end.

(** [user.last_login = now] followed by the commit. *)
Definition update_last_login (user : User.t) (now : Z) : App unit :=
  d <- get_db ;;
  commit (Db.mk
            (map (fun u => if User.id u =? User.id user
                           then User.set_last_login u now else u)
                 (Db.users d))
            (Db.categories d) (Db.products d)).

Definition login (req : Request) (env : Env) : App Response :=
  match method req with
  | POST =>
      let email := form_get (form req) "email" in
      let password := form_get (form req) "password" in
      d <- get_db ;;
      let user := User_filter_by_email d email in
      authenticated <-
        match user with
        | Some u =>
            ok <- check_password_hash (User.password u) password ;;
            ret (if ok then Some u else None)
        | None => ret None
        end ;;
      match authenticated with
      | Some user =>
          s <- get_session ;;
          set_session (Session.mk (Some (User.id user)) (Session.cart s)) ;;
          update_last_login user (utcnow env) ;;
          if User.is_admin user
          then ret (redirect ep_admin_dashboard)
          else ret (redirect ep_index)
      | None =>
          flash MSG_INVALID_CREDENTIALS "danger" ;;
          ret (render_template login_html)
      end
  | GET => ret (render_template login_html)
  end.

Definition field_is (v : option string) (column : string) : bool :=
  match v with
  | Some s => String.eqb column s
  | None => false
  end.

(** [db.session.add(new_user)] and the commit, under the NOT NULL and
    UNIQUE constraints on [username] and [email]. *)
Definition add_user (username email : option string) (password : string)
    (first_name last_name : option string) (now : Z) : App unit :=
  d <- get_db ;;
  match username, email with
  | Some u, Some e =>
      if existsb (fun r => String.eqb (User.username r) u) (Db.users d)
         || existsb (fun r => String.eqb (User.email r) e) (Db.users d)
      then abort 500
      else
        commit (Db.mk
                  (Db.users d ++
                   [User.mk (next_id (map User.id (Db.users d))) u e password
                            first_name last_name false 0 now None])
                  (Db.categories d) (Db.products d))
  | _, _ => abort 500
  end.

Definition register (req : Request) (env : Env) : App Response :=
  match method req with
  | POST =>
      let username := form_get (form req) "username" in
      let email := form_get (form req) "email" in
      let password := form_get (form req) "password" in
      let confirm_password := form_get (form req) "confirm_password" in
      let first_name := form_get (form req) "first_name" in
      let last_name := form_get (form req) "last_name" in
      if negb (match password, confirm_password with
               | Some a, Some b => String.eqb a b
               | None, None => true
               | _, _ => false
               end)
      then
        flash MSG_PASSWORD_MISMATCH "danger" ;;
        ret (redirect ep_register)
      else
        d <- get_db ;;
        let existing_user :=
          find (fun r => field_is username (User.username r)
                         || field_is email (User.email r))
               (Db.users d) in
        match existing_user with
        | Some _ =>
            flash MSG_ALREADY_USED "danger" ;;
            ret (redirect ep_register)
        | None =>
            pwhash <- generate_password_hash env password ;;
            add_user username email pwhash first_name last_name (utcnow env) ;;
            flash MSG_ACCOUNT_CREATED "success" ;;
            ret (redirect ep_login)
        end
  | GET => ret (render_template register_html)
  end.

Definition logout : App Response :=
  set_session (Session.mk None None) ;;
  ret (redirect ep_index).

(** [not user or not user.is_admin]. *)
Definition not_admin (user : option User.t) : bool :=
  match user with
  | Some u => negb (User.is_admin u)
  | None => true
  end.

Definition admin_dashboard : App Response :=
  s <- get_session ;;
  match Session.user_id s with
  | None => ret (redirect ep_login)
  | Some uid =>
      d <- get_db ;;
      let user := User_get d uid in
      if not_admin user then
        flash MSG_NOT_AUTHORISED "danger" ;;
        ret (redirect ep_index)
      else
        ret (render_template admin_dashboard_html)
  end.

Definition admin_products : App Response :=
  s <- get_session ;;
  match Session.user_id s with
  | None => ret (redirect ep_login)
  | Some uid =>
      d <- get_db ;;
      let user := User_get d uid in
      if not_admin user then
        flash MSG_NOT_AUTHORISED "danger" ;;
        ret (redirect ep_index)
      else
        let products := Db.products d in
        ret (render_template (admin_products_html products))
  end.

(** [db.session.add(new_product)] and the commit: [name] and [price]
    are NOT NULL, and [price] goes through [to_float]. *)
Definition add_product (name description price category_id : option string)
    (is_active : bool) (now : Z) : App unit :=
  d <- get_db ;;
  match name, price with
  | Some n, Some ptext =>
      q <- raising (to_float ptext) ;;
      commit (Db.mk (Db.users d) (Db.categories d)
                (Db.products d ++
                 [Product.mk (next_id (map Product.id (Db.products d))) n
                             description q None None
                             (option_map to_cell category_id) is_active now]))
  | _, _ => abort 500
  end.

Definition admin_add_product (req : Request) (env : Env) : App Response :=
  s <- get_session ;;
  match Session.user_id s with
  | None => ret (redirect ep_login)
  | Some uid =>
      d <- get_db ;;
      let user := User_get d uid in
      if not_admin user then
        flash MSG_NOT_AUTHORISED "danger" ;;
        ret (redirect ep_index)
      else
        match method req with
        | POST =>
            let name := form_get (form req) "name" in
            let description := form_get (form req) "description" in
            let price := form_get (form req) "price" in
            let category_id := form_get (form req) "category_id" in
            let is_active :=
              match form_get (form req) "is_active" with
              | Some (String _ _) => true
              | _ => false
              end in
            add_product name description price category_id is_active (utcnow env) ;;
            flash MSG_PRODUCT_ADDED "success" ;;
            ret (redirect ep_admin_products)
        | GET =>
            let categories := Db.categories d in
            ret (render_template (admin_add_product_html categories))
        end
  end.

End Handlers.

(** The admin routes of the URL map (main.py:205, 217, 230). *)
Inductive AdminRoute : Type :=
| url_admin
| url_admin_products
| url_admin_add_product.

Definition admin_view (r : AdminRoute) (req : Request) (env : Env) : App Response :=
  match r with
  | url_admin => admin_dashboard
  | url_admin_products => admin_products
  | url_admin_add_product => admin_add_product req env
  end.

(** ** Start-up, context processors and the URL map (main.py:96-111, 114-284) *)

Section Application.

Variable hash_internal : string -> string -> string -> option string.
Variable default_method : string.

(** [db.session.add(admin)] and the commit (main.py:102-111), under the
    UNIQUE constraints on [username] and [email]. *)
Definition add_admin (pwhash : string) (now : Z) : App unit :=
  d <- get_db ;;
  if existsb (fun r => String.eqb (User.username r) "admin") (Db.users d)
     || existsb (fun r => String.eqb (User.email r) "admin@example.com") (Db.users d)
  then abort 500
  else
    commit (Db.mk
              (Db.users d ++
               [User.mk (next_id (map User.id (Db.users d))) "admin"
                        "admin@example.com" pwhash (Some "Admin") (Some "User")
                        true 0 now None])
              (Db.categories d) (Db.products d)).

(** The block run when the module is loaded (main.py:96-111):
    [db.create_all()] leaves existing tables alone, and the administrator
    is created if no user has the address.  An exception raised here is
    shown as [Abort 500]; it stops the application before any request. *)
Definition create_admin (env : Env) : App unit :=
  d <- get_db ;;
  let admin := User_filter_by_email d (Some "admin@example.com") in
  match admin with
  | Some _ => ret tt
  | None =>
      pwhash <- generate_password_hash hash_internal default_method env
                  (Some "admin123") ;;
      add_admin pwhash (utcnow env)
  end.

(** [inject_cart_count] (main.py:274-279): the value of [cart_count]. *)
Definition inject_cart_count : App nat :=
  s <- get_session ;;
  match Session.cart s with
  | Some cart => ret (List.length cart)
  | None => ret 0%nat
  end.

(** [inject_categories] (main.py:281-284): the value of
    [all_categories]. *)
Definition inject_categories : App (list Category.t) :=
  d <- get_db ;;
  ret (Db.categories d).

(** The rules of the URL map, one for each [@app.route]. *)
Inductive Route : Type :=
| url_index
| url_products
| url_product_detail (product_id : Z)
| url_login
| url_register
| url_logout
| url_admin_area (r : AdminRoute).

(** The routes declared with [methods=['GET', 'POST']]; the others take
    GET only. *)
Definition accepts_post (r : Route) : bool :=
  match r with
  | url_login | url_register | url_admin_area url_admin_add_product => true
  | _ => false
  end.

(** A request to a route: 405 for a method the route does not take, the
    view otherwise. *)
Definition dispatch (r : Route) (req : Request) (env : Env) : App Response :=
  match method req, accepts_post r with
  | POST, false => abort 405
  | _, _ =>
      match r with
      | url_index => index
      | url_products => products req
      | url_product_detail product_id => product_detail product_id
      | url_login => login hash_internal req env
      | url_register => register hash_internal default_method req env
      | url_logout => logout
      | url_admin_area a => admin_view a req env
      end
  end.

End Application.

(** ** Invariants and predicates of the statements *)

(** The keys of the User table: [id] is the primary key, [username] and
    [email] are UNIQUE (main.py:22-24). *)
Definition users_wf (d : Db.t) : Prop :=
  NoDup (map User.id (Db.users d))
  /\ NoDup (map User.username (Db.users d))
  /\ NoDup (map User.email (Db.users d)).

Definition no_dollar (s : string) : Prop := split_dollar s = None.

(** The request went through: the handler answered with a redirect. *)
Definition redirected {A} (r : Outcome Response * A) : Prop :=
  exists e, fst r = Ok (redirect e).

Definition created_desc (p q : Product.t) : Prop :=
  Product.created_at q <= Product.created_at p.

(** A digest to run the handlers on: the salt followed by the password.
    It stands for the library's digest in the examples only. *)
Definition sample_digest (method salt password : string) : option string :=
  Some (salt ++ password)%string.

Definition sample_method : string := "scrypt:32768:8:1".

Definition sample_env : Env := mkEnv 1700000000 (fun i => i).

Definition with_flash (w : World) (message category : string) : World :=
  mkWorld (db w) (session w) (flashes w ++ [(message, category)]).

(** The page number of a products request: [page] defaults to 1. *)
Definition requested_page (req : Request) : Z :=
  match arg_page req with Some n => n | None => 1 end.

(** [is_active = True if request.form.get('is_active') else False]. *)
Definition submitted_is_active (req : Request) : bool :=
  match form_get (form req) "is_active" with
  | Some (String _ _) => true
  | _ => false
  end.

(** The session belongs to an admin. *)
Definition admin_session (w : World) : Prop :=
  exists uid u,
    Session.user_id (session w) = Some uid
    /\ User_get (db w) uid = Some u
    /\ User.is_admin u = true.

(** The row [admin_add_product] builds from a form whose name is [n] and
    whose price reads as [q], over the tables [d]. *)
Definition submitted_product (req : Request) (env : Env) (d : Db.t)
    (n : string) (q : Q) : Product.t :=
  Product.mk (next_id (map Product.id (Db.products d))) n
    (form_get (form req) "description") q None None
    (option_map to_cell (form_get (form req) "category_id"))
    (submitted_is_active req) (utcnow env).

Definition with_product (w : World) (p : Product.t) : World :=
  mkWorld (Db.mk (Db.users (db w)) (Db.categories (db w)) (Db.products (db w) ++ [p]))
          (session w) (flashes w).

(** The world after [user] has logged in at time [now]: the session
    carries the user's id and the user's row its new [last_login]. *)
Definition logged_in (w : World) (user : User.t) (now : Z) : World :=
  mkWorld
    (Db.mk (map (fun u => if User.id u =? User.id user
                          then User.set_last_login u now else u)
                (Db.users (db w)))
           (Db.categories (db w)) (Db.products (db w)))
    (Session.mk (Some (User.id user)) (Session.cart (session w)))
    (flashes w).

(** A user row has the submitted username or the submitted email. *)
Definition takes (username email : option string) (u : User.t) : Prop :=
  Some (User.username u) = username \/ Some (User.email u) = email.

(** The row [register] builds for a username, an email and a password
    hash, over the tables [d]. *)
Definition registered_user (req : Request) (env : Env) (d : Db.t)
    (un em pwhash : string) : User.t :=
  User.mk (next_id (map User.id (Db.users d))) un em pwhash
    (form_get (form req) "first_name") (form_get (form req) "last_name")
    false 0 (utcnow env) None.

Definition with_user (w : World) (u : User.t) : World :=
  mkWorld (Db.mk (Db.users (db w) ++ [u]) (Db.categories (db w)) (Db.products (db w)))
          (session w) (flashes w).

(** A handler keeps a property of the world, however it ends. *)
Definition preserves {A} (P : World -> Prop) (m : App A) : Prop :=
  forall w, P w -> P (snd (m w)).

Definition keys_unique (w : World) : Prop := users_wf (db w).

(** A user row without its [last_login]. *)
Definition forget_last_login (u : User.t) : User.t :=
  User.mk (User.id u) (User.username u) (User.email u) (User.password u)
          (User.first_name u) (User.last_name u) (User.is_admin u)
          (User.loyalty_points u) (User.created_at u) None.

(** The accounts of the User table: its rows, [last_login] apart. *)
Definition accounts (d : Db.t) : list User.t :=
  map forget_last_login (Db.users d).

(** The row start-up builds for the administrator. *)
Definition seeded_admin (env : Env) (d : Db.t) (pwhash : string) : User.t :=
  User.mk (next_id (map User.id (Db.users d))) "admin" "admin@example.com" pwhash
          (Some "Admin") (Some "User") true 0 (utcnow env) None.

(** The primary keys and UNIQUE columns of the User and Product tables
    hold no duplicate. *)
Definition keys_ok (w : World) : Prop :=
  users_wf (db w) /\ NoDup (map Product.id (Db.products (db w))).

(** The position of an item in a paginated list: its page, from 1, and
    its place on the page, from 0. *)
Definition page_of (i per_page : nat) : Z := Z.of_nat (i / per_page) + 1.

(** The accounts after are the accounts before, followed by new rows
    that are not admins. *)
Definition accounts_grow (w0 w : World) : Prop :=
  exists extra,
    accounts (db w) = accounts (db w0) ++ extra
    /\ Forall (fun u => User.is_admin u = false) extra.

Definition accounts_same (w0 w : World) : Prop :=
  accounts (db w) = accounts (db w0).

Definition catalog_same (w0 w : World) : Prop :=
  Db.categories (db w) = Db.categories (db w0)
  /\ Db.products (db w) = Db.products (db w0).

Definition session_same (w0 w : World) : Prop := session w = session w0.

(** ** Sample data for the examples *)

Definition sample_admin : User.t :=
  User.mk 1 "admin" "admin@example.com"
    (join_pwhash sample_method "abcdefghijklmnop" "abcdefghijklmnopadmin123")
    (Some "Admin") (Some "User") true 0 1700000000 None.

Definition sample_customer : User.t :=
  User.mk 2 "u1" "a@x.com"
    (join_pwhash sample_method "abcdefghijklmnop" "abcdefghijklmnoppw1")
    None None false 0 1700000100 None.

Definition sample_categories : list Category.t :=
  [Category.mk 1 "Cards" None; Category.mk 2 "Games" (Some "Game keys")].

Definition gift_card_10 : Product.t :=
  Product.mk 1 "Gift card 10" None (10 # 1) None None (Some (CInt 1)) true 100.

Definition gift_card_25 : Product.t :=
  Product.mk 2 "Gift card 25" None (25 # 1) None None (Some (CInt 1)) true 300.

Definition old_key : Product.t :=
  Product.mk 3 "Old key" None (5 # 1) None None (Some (CInt 2)) false 400.

Definition gift_card_50 : Product.t :=
  Product.mk 4 "Gift card 50" None (50 # 1) None None (Some (CInt 1)) true 200.

Definition loose_item : Product.t :=
  Product.mk 5 "Loose item" None (1 # 2) None None None true 250.

Definition sample_products : list Product.t :=
  [gift_card_10; gift_card_25; old_key; gift_card_50; loose_item].

Definition sample_db : Db.t :=
  Db.mk [sample_admin; sample_customer] sample_categories sample_products.

Definition as_user (uid : option Z) (d : Db.t) : World :=
  mkWorld d (Session.mk uid None) [].

Definition empty_db : Db.t := Db.mk [] [] [].

(** A table where the username "admin" belongs to somebody else. *)
Definition squatter_db : Db.t :=
  Db.mk [User.mk 1 "admin" "someone@x.com" "x" None None false 0 1700000000 None]
        [] [].

(** * Properties *)

(** ** Running a handler *)

Ltac run_app :=
  unfold bind, ret, abort, get_db, get_session, set_session, commit, flash,
    get_or_404, raising; cbv beta iota zeta.

Lemma bind_ok {A B} (m : App A) (k : A -> App B) (w w' : World) (a : A) :
  m w = (Ok a, w') -> bind m k w = k a w'.
Proof. intros H. unfold bind. rewrite H. reflexivity. Qed.

Lemma bind_abort {A B} (m : App A) (k : A -> App B) (w w' : World) (s : Z) :
  m w = (Abort s, w') -> bind m k w = (Abort s, w').
Proof. intros H. unfold bind. rewrite H. reflexivity. Qed.

(** ** The admin routes *)

Ltac admin_prefix :=
  unfold admin_dashboard, admin_products, admin_add_product; run_app.

Lemma admin_view_anonymous (r : AdminRoute) (req : Request) (env : Env) (w : World) :
  Session.user_id (session w) = None ->
  admin_view r req env w = (Ok (redirect ep_login), w).
Proof.
  intros H. destruct r; simpl; admin_prefix; rewrite H; reflexivity.
Qed.

Lemma not_admin_true (d : Db.t) (uid : Z) :
  (forall u, User_get d uid = Some u -> User.is_admin u = false) ->
  not_admin (User_get d uid) = true.
Proof.
  intros H. destruct (User_get d uid) as [u|]; simpl; [|reflexivity].
  rewrite (H u eq_refl). reflexivity.
Qed.

Lemma admin_view_denied (r : AdminRoute) (req : Request) (env : Env) (w : World)
    (uid : Z) :
  Session.user_id (session w) = Some uid ->
  (forall u, User_get (db w) uid = Some u -> User.is_admin u = false) ->
  admin_view r req env w
  = (Ok (redirect ep_index), with_flash w MSG_NOT_AUTHORISED "danger").
Proof.
  intros Hs Hu. apply not_admin_true in Hu.
  destruct r; simpl; admin_prefix; rewrite Hs, Hu; reflexivity.
Qed.

(** C1. On each of /admin, /admin/products and /admin/add_product: a
    session without [user_id] is redirected to the login page and nothing
    changes; a session whose [user_id] names no user, or a user who is
    not an admin, is redirected to the home page with the denial message
    flashed, and the tables stay as they were.  Neither answer is a
    rendered page, and no product is inserted. *)
Theorem admin_routes_turn_away_non_admins
    (r : AdminRoute) (req : Request) (env : Env) (w : World) :
  (Session.user_id (session w) = None ->
     admin_view r req env w = (Ok (redirect ep_login), w))
  /\ (forall uid,
        Session.user_id (session w) = Some uid ->
        (forall u, User_get (db w) uid = Some u -> User.is_admin u = false) ->
        admin_view r req env w
        = (Ok (redirect ep_index), with_flash w MSG_NOT_AUTHORISED "danger")
        /\ db (snd (admin_view r req env w)) = db w).
Proof.
  split.
  - apply admin_view_anonymous.
  - intros uid Hs Hu.
    rewrite (admin_view_denied r req env w uid Hs Hu).
    split; reflexivity.
Qed.

Lemma admin_routes_turn_away_non_admins_witness :
  admin_view url_admin_add_product
    (mkRequest POST None None [("name", "x"); ("price", "1")]) sample_env
    (as_user None sample_db)
  = (Ok (redirect ep_login), as_user None sample_db)
  /\ admin_view url_admin_products (mkRequest GET None None []) sample_env
       (as_user (Some 2) sample_db)
     = (Ok (redirect ep_index),
        with_flash (as_user (Some 2) sample_db) MSG_NOT_AUTHORISED "danger").
Proof.
  split.
  - apply (proj1 (admin_routes_turn_away_non_admins _ _ _ _)). reflexivity.
  - apply (proj2 (admin_routes_turn_away_non_admins _ _ _ _) 2).
    + reflexivity.
    + intros u H. vm_compute in H. inversion H. reflexivity.
Defined.

(** ** Ordering by creation time *)

Lemma insert_desc_perm (p : Product.t) (l : list Product.t) :
  Permutation (insert_desc p l) (p :: l).
Proof.
  induction l as [|q l IH]; simpl.
  - apply Permutation_refl.
  - destruct (Product.created_at q <=? Product.created_at p).
    + apply Permutation_refl.
    + eapply perm_trans; [apply perm_skip, IH | apply perm_swap].
Qed.

Lemma order_by_created_at_desc_perm (l : list Product.t) :
  Permutation (order_by_created_at_desc l) l.
Proof.
  induction l as [|p l IH]; simpl.
  - apply perm_nil.
  - eapply perm_trans; [apply insert_desc_perm | apply perm_skip, IH].
Qed.

Lemma insert_desc_sorted (p : Product.t) (l : list Product.t) :
  StronglySorted created_desc l -> StronglySorted created_desc (insert_desc p l).
Proof.
  induction 1 as [|q l Hl IH Hq]; simpl.
  - repeat constructor.
  - destruct (Z.leb_spec (Product.created_at q) (Product.created_at p)) as [Hle|Hgt].
    + constructor; [constructor; assumption|].
      constructor; [exact Hle|].
      eapply Forall_impl; [|exact Hq].
      unfold created_desc. intros a Ha. lia.
    + constructor; [exact IH|].
      eapply Permutation_Forall; [apply Permutation_sym, insert_desc_perm|].
      constructor; [unfold created_desc; lia | exact Hq].
Qed.

Lemma order_by_created_at_desc_sorted (l : list Product.t) :
  StronglySorted created_desc (order_by_created_at_desc l).
Proof.
  induction l as [|p l IH]; simpl.
  - constructor.
  - apply insert_desc_sorted, IH.
Qed.

Lemma sorted_app_inv {A} (R : A -> A -> Prop) (l1 l2 : list A) :
  StronglySorted R (l1 ++ l2) ->
  StronglySorted R l1 /\ forall a b, In a l1 -> In b l2 -> R a b.
Proof.
  induction l1 as [|x l1 IH]; simpl; intros H.
  - split; [constructor | intros a b []].
  - inversion H as [|y l Hs Hf]; subst.
    destruct (IH Hs) as [Hs1 Hc].
    apply Forall_app in Hf. destruct Hf as [Hf1 Hf2].
    split; [constructor; assumption|].
    intros a b [->|Ha] Hb.
    + rewrite Forall_forall in Hf2. apply Hf2, Hb.
    + apply Hc; assumption.
Qed.

(** C7. The home page answers with the index template; its featured
    products are at most 8, all active, ordered from the newest to the
    oldest, and no active product left out is newer than one shown; its
    category list is the whole Category table. *)
Theorem home_shows_latest_active_products (w : World) :
  exists featured rest : list Product.t,
    index w
    = (Ok (render_template (index_html featured (Db.categories (db w)))), w)
    /\ (List.length featured <= 8)%nat
    /\ List.length featured
       = Nat.min 8 (List.length (filter Product.is_active (Db.products (db w))))
    /\ Forall (fun p => Product.is_active p = true) featured
    /\ StronglySorted created_desc featured
    /\ Permutation (featured ++ rest) (filter Product.is_active (Db.products (db w)))
    /\ (forall p q, In p featured -> In q rest ->
                    Product.created_at q <= Product.created_at p).
Proof.
  set (act := filter Product.is_active (Db.products (db w))).
  set (srt := order_by_created_at_desc act).
  exists (firstn 8 srt), (skipn 8 srt).
  assert (Hperm : Permutation srt act) by apply order_by_created_at_desc_perm.
  assert (Hsorted : StronglySorted created_desc (firstn 8 srt ++ skipn 8 srt)).
  { rewrite firstn_skipn. apply order_by_created_at_desc_sorted. }
  apply sorted_app_inv in Hsorted. destruct Hsorted as [Hs Hc].
  repeat split.
  - apply firstn_le_length.
  - rewrite length_firstn. f_equal. apply Permutation_length, Hperm.
  - apply Forall_forall. intros p Hp.
    assert (Hin : In p act).
    { eapply Permutation_in; [exact Hperm|].
      rewrite <- (firstn_skipn 8 srt). apply in_or_app. left. exact Hp. }
    apply filter_In in Hin. tauto.
  - exact Hs.
  - rewrite firstn_skipn. exact Hperm.
  - exact Hc.
Qed.

(** ** Product detail *)

Lemma cell_eqb_eq (a b : cell) : cell_eqb a b = true -> a = b.
Proof.
  destruct a, b; simpl; intros H; try discriminate.
  - apply Z.eqb_eq in H. now subst.
  - apply String.eqb_eq in H. now subst.
Qed.

Lemma category_id_eq_true (v : option cell) (p : Product.t) :
  category_id_eq v p = true -> Product.category_id p = v.
Proof.
  unfold category_id_eq.
  destruct v as [a|], (Product.category_id p) as [b|]; intros H;
    try discriminate; try reflexivity.
  apply cell_eqb_eq in H. now subst.
Qed.

Lemma Product_get_some (d : Db.t) (pid : Z) (p : Product.t) :
  Product_get d pid = Some p -> In p (Db.products d) /\ Product.id p = pid.
Proof.
  unfold Product_get. intros H. apply find_some in H.
  destruct H as [Hin Hid]. apply Z.eqb_eq in Hid. auto.
Qed.

Lemma Product_get_none (d : Db.t) (pid : Z) :
  Product_get d pid = None ->
  ~ exists p, In p (Db.products d) /\ Product.id p = pid.
Proof.
  unfold Product_get. intros H [p [Hin Hid]].
  pose proof (find_none _ _ H p Hin) as Hn. simpl in Hn.
  apply Z.eqb_neq in Hn. contradiction.
Qed.

(** C8, as the code has it.  For a product id that SQLite's integers
    hold, [product_detail] answers not-found exactly when no product has
    the requested id.  When one has, it renders that product with its
    related products: at most 4 rows of the Product table, each active,
    each with the product's [category_id], none with the product's id. *)
Theorem product_detail_shows_product_and_related (product_id : Z) (w : World) :
  fits product_id = true ->
  (product_detail product_id w = (Abort 404, w)
   <-> ~ exists p, In p (Db.products (db w)) /\ Product.id p = product_id)
  /\ ((exists p, In p (Db.products (db w)) /\ Product.id p = product_id) ->
      exists product related,
        product_detail product_id w
        = (Ok (render_template (product_detail_html product related)), w)
        /\ In product (Db.products (db w))
        /\ Product.id product = product_id
        /\ (List.length related <= 4)%nat
        /\ Forall (fun r => In r (Db.products (db w))
                            /\ Product.is_active r = true
                            /\ Product.category_id r = Product.category_id product
                            /\ Product.id r <> Product.id product)
                  related).
Proof.
  intros Hfits. unfold product_detail. run_app.
  destruct (Product_get (db w) product_id) as [product|] eqn:Hget;
    [|rewrite Hfits]; cbv beta iota.
  - destruct (Product_get_some _ _ _ Hget) as [Hin Hid].
    split.
    + split; [discriminate|]. intros Hn. exfalso. apply Hn. eauto.
    + intros _. eexists; eexists. split; [reflexivity|].
      repeat split; try assumption.
      * apply firstn_le_length.
      * apply Forall_forall. intros r Hr.
        assert (Hf : In r (filter
                  (fun p => category_id_eq (Product.category_id product) p
                            && negb (Product.id p =? Product.id product)
                            && Product.is_active p)
                  (Db.products (db w)))).
        { rewrite <- (firstn_skipn 4 (filter _ _)). apply in_or_app. now left. }
        apply filter_In in Hf. destruct Hf as [Hrin Hc].
        apply andb_true_iff in Hc. destruct Hc as [Hc Hact].
        apply andb_true_iff in Hc. destruct Hc as [Hcat Hne].
        apply negb_true_iff, Z.eqb_neq in Hne.
        apply category_id_eq_true in Hcat. auto.
  - pose proof (Product_get_none _ _ Hget) as Hn.
    split.
    + split; [intros _; exact Hn | reflexivity].
    + intros He. contradiction.
Qed.

Lemma product_detail_shows_product_and_related_witness :
  exists product related,
    product_detail 1 (as_user None sample_db)
    = (Ok (render_template (product_detail_html product related)),
       as_user None sample_db)
    /\ In product sample_products
    /\ Product.id product = 1
    /\ (List.length related <= 4)%nat
    /\ Forall (fun r => In r sample_products
                        /\ Product.is_active r = true
                        /\ Product.category_id r = Product.category_id product
                        /\ Product.id r <> Product.id product)
              related.
Proof.
  apply (proj2 (product_detail_shows_product_and_related 1 (as_user None sample_db)
                  eq_refl)).
  eexists. split; [left; reflexivity | reflexivity].
Defined.

(** C8 as written fails for an id beyond SQLite's integers: no product
    has the id 2^63, and the request ends with status 500, not with
    not-found. *)
Lemma product_detail_beyond_sqlite_integers :
  ~ (exists p, In p (Db.products sample_db) /\ Product.id p = 2 ^ 63)
  /\ product_detail (2 ^ 63) (as_user None sample_db)
     = (Abort 500, as_user None sample_db)
  /\ product_detail (2 ^ 63) (as_user None sample_db)
     <> (Abort 404, as_user None sample_db).
Proof.
  split; [|split; [reflexivity | discriminate]].
  intros [p [Hin Hid]]. simpl in Hin.
  destruct Hin as [<-|[<-|[<-|[<-|[<-|[]]]]]]; discriminate Hid.
Qed.

(** ** The products list *)

Lemma fits_spec (z : Z) : fits z = true <-> - 2 ^ 63 <= z < 2 ^ 63.
Proof.
  unfold fits. rewrite andb_true_iff, Z.leb_le, Z.ltb_lt. reflexivity.
Qed.

Lemma paginate_cases (q : list Product.t) (params : list Z) (page : Z) (n : nat)
    (w : World) :
  (paginate q params page n w = (Abort 404, w)
   /\ (page < 1
       \/ (page <> 1 /\ page_items q page n = []
           /\ forallb fits (((page - 1) * Z.of_nat n) :: params) = true)))
  \/ (paginate q params page n w = (Abort 500, w)
      /\ 1 <= page
      /\ page_items q page n = []
      /\ forallb fits (((page - 1) * Z.of_nat n) :: params) = false)
  \/ (paginate q params page n w
      = (Ok (mkPagination (page_items q page n) page n (List.length q)), w)
      /\ 1 <= page
      /\ (page_items q page n <> []
          \/ (page = 1
              /\ forallb fits (((page - 1) * Z.of_nat n) :: params) = true))).
Proof.
  unfold paginate.
  destruct (Z.ltb_spec page 1) as [Hlt|Hge].
  - left. split; [reflexivity | now left].
  - destruct (page_items q page n) as [|x items'] eqn:Hitems.
    + destruct (forallb fits (((page - 1) * Z.of_nat n) :: params)) eqn:Hfits;
        cbn [negb].
      * destruct (Z.eqb_spec page 1) as [->|Hne].
        -- right. right. unfold ret. repeat split; auto with zarith.
        -- left. split; [reflexivity | right; auto].
      * right. left. repeat split; auto.
    + right. right. unfold ret. repeat split; [assumption | left; discriminate].
Qed.

Lemma paginate_same (q : list Product.t) (params : list Z) (page : Z) (n : nat)
    (w : World) :
  snd (paginate q params page n w) = w.
Proof.
  destruct (paginate_cases q params page n w) as [[H _]|[[H _]|[H _]]];
    rewrite H; reflexivity.
Qed.

Lemma paginate_ok (q : list Product.t) (params : list Z) (page : Z) (n : nat)
    (w w' : World) (pg : Pagination) :
  paginate q params page n w = (Ok pg, w') ->
  pg = mkPagination (page_items q page n) page n (List.length q) /\ w' = w.
Proof.
  intros H.
  destruct (paginate_cases q params page n w) as [[E _]|[[E _]|[E _]]];
    rewrite E in H; inversion H; auto.
Qed.

Lemma page_items_length (q : list Product.t) (page : Z) (n : nat) :
  (List.length (page_items q page n) <= n)%nat.
Proof. unfold page_items. apply firstn_le_length. Qed.

Lemma page_items_In (q : list Product.t) (page : Z) (n : nat) (p : Product.t) :
  In p (page_items q page n) -> In p q.
Proof.
  unfold page_items. intros H.
  rewrite <- (firstn_skipn (Z.to_nat (page - 1) * n) q). apply in_or_app. right.
  rewrite <- (firstn_skipn n (skipn _ q)). apply in_or_app. now left.
Qed.

Lemma truthy_some (v : option Z) (c : Z) :
  truthy v = Some c <-> v = Some c /\ c <> 0.
Proof.
  unfold truthy. destruct v as [z|].
  - destruct (Z.eqb_spec z 0) as [->|Hne]; split.
    + discriminate.
    + intros [H Hc]. inversion H. subst. contradiction.
    + intros H. inversion H. subst. auto.
    + intros [H _]. exact H.
  - split; [discriminate | intros [H _]; discriminate].
Qed.

Lemma products_unfiltered (req : Request) (w : World) :
  truthy (arg_category req) = None ->
  products req w
  = bind (paginate (active_products (db w)) [] (requested_page req) 12)
         (fun pg => ret (render_template (products_html pg ALL_PRODUCTS_TITLE))) w.
Proof.
  intros H. unfold products, requested_page.
  unfold bind at 1. unfold get_db. cbv beta iota zeta. rewrite H. reflexivity.
Qed.

Lemma products_filtered (req : Request) (w : World) (c : Z) :
  truthy (arg_category req) = Some c ->
  products req w
  = bind (paginate (filter (category_id_eq (Some (CInt c))) (active_products (db w)))
                   [c] (requested_page req) 12)
         (fun pg =>
            bind (get_or_404 (Category_get (db w) c) c)
                 (fun category =>
                    ret (render_template
                           (products_html pg
                              (CATEGORY_TITLE_PREFIX ++ Category.name category)%string)))) w.
Proof.
  intros H. unfold products, requested_page.
  unfold bind at 1. unfold get_db. cbv beta iota zeta. rewrite H. reflexivity.
Qed.

(** What a products-list request can be answered with, and what a
    rendered answer holds. *)
Lemma products_outcomes (req : Request) (w : World) :
  products req w = (Abort 404, w)
  \/ products req w = (Abort 500, w)
  \/ (truthy (arg_category req) = None
      /\ products req w
         = (Ok (render_template
                  (products_html
                     (mkPagination
                        (page_items (active_products (db w)) (requested_page req) 12)
                        (requested_page req) 12
                        (List.length (active_products (db w))))
                     ALL_PRODUCTS_TITLE)),
            w))
  \/ (exists c category,
        truthy (arg_category req) = Some c
        /\ Category_get (db w) c = Some category
        /\ products req w
           = (Ok (render_template
                    (products_html
                       (mkPagination
                          (page_items
                             (filter (category_id_eq (Some (CInt c)))
                                     (active_products (db w)))
                             (requested_page req) 12)
                          (requested_page req) 12
                          (List.length
                             (filter (category_id_eq (Some (CInt c)))
                                     (active_products (db w)))))
                       (CATEGORY_TITLE_PREFIX ++ Category.name category)%string)),
              w)).
Proof.
  destruct (truthy (arg_category req)) as [c|] eqn:Ht.
  - rewrite (products_filtered _ _ _ Ht).
    destruct (paginate_cases
                (filter (category_id_eq (Some (CInt c))) (active_products (db w)))
                [c] (requested_page req) 12 w) as [[Hp _]|[[Hp _]|[Hp _]]].
    + left. apply bind_abort, Hp.
    + right. left. apply bind_abort, Hp.
    + rewrite (bind_ok _ _ _ _ _ Hp). unfold bind, get_or_404.
      destruct (Category_get (db w) c) as [category|] eqn:Hcat.
      * right. right. right. exists c, category.
        split; [reflexivity | split; [exact Hcat | reflexivity]].
      * destruct (fits c); [left | right; left]; reflexivity.
  - rewrite (products_unfiltered _ _ Ht).
    destruct (paginate_cases (active_products (db w)) [] (requested_page req) 12 w)
      as [[Hp _]|[[Hp _]|[Hp _]]].
    + left. apply bind_abort, Hp.
    + right. left. apply bind_abort, Hp.
    + right. right. left. split; [reflexivity|].
      rewrite (bind_ok _ _ _ _ _ Hp). reflexivity.
Qed.

(** C5, as the code has it.  A products-list request is answered by the
    products template, by not-found or with status 500, and changes
    nothing.  A rendered page holds at most 12 products, all of them
    active rows of the Product table; when the category parameter is
    supplied and is not 0 they all have that [category_id], the category
    exists and names the title.  A supplied category other than 0 that no
    Category row has makes the request not-found, when the category and
    the offset of the page are integers SQLite holds. *)
Theorem products_page_is_active_and_filtered (req : Request) (w : World) :
  (products req w = (Abort 404, w)
   \/ products req w = (Abort 500, w)
   \/ exists pg title,
        products req w = (Ok (render_template (products_html pg title)), w))
  /\ (forall pg title w',
        products req w = (Ok (render_template (products_html pg title)), w') ->
        (List.length (items pg) <= 12)%nat
        /\ Forall (fun p => In p (Db.products (db w)) /\ Product.is_active p = true)
                  (items pg)
        /\ (forall c, arg_category req = Some c -> c <> 0 ->
              Forall (fun p => Product.category_id p = Some (CInt c)) (items pg)
              /\ exists category,
                   Category_get (db w) c = Some category
                   /\ title = (CATEGORY_TITLE_PREFIX ++ Category.name category)%string))
  /\ (forall c, arg_category req = Some c -> c <> 0 ->
        fits c = true ->
        (requested_page req - 1) * 12 < 2 ^ 63 ->
        Category_get (db w) c = None ->
        products req w = (Abort 404, w)).
Proof.
  split; [|split].
  - destruct (products_outcomes req w) as [H|[H|[[_ H]|[c [category [_ [_ H]]]]]]];
      rewrite H; eauto.
  - intros pg title w' H.
    destruct (products_outcomes req w) as [E|[E|[[Ht E]|[c [category [Ht [Hcat E]]]]]]];
      rewrite E in H; inversion H; subst; clear H; simpl items.
    + split; [apply page_items_length|]. split.
      * apply Forall_forall. intros p Hp. apply page_items_In in Hp.
        unfold active_products in Hp. apply filter_In in Hp. exact Hp.
      * intros c Harg Hc. exfalso.
        assert (Hs : truthy (arg_category req) = Some c) by (apply truthy_some; auto).
        rewrite Ht in Hs. discriminate.
    + apply truthy_some in Ht. destruct Ht as [Harg Hc0].
      split; [apply page_items_length|]. split.
      * apply Forall_forall. intros p Hp. apply page_items_In in Hp.
        apply filter_In in Hp. destruct Hp as [Hp _].
        unfold active_products in Hp. apply filter_In in Hp. exact Hp.
      * intros c' Harg' _. rewrite Harg in Harg'. inversion Harg'; subst c'.
        split; [|eauto].
        apply Forall_forall. intros p Hp. apply page_items_In in Hp.
        apply filter_In in Hp. destruct Hp as [_ Hp].
        apply category_id_eq_true in Hp. exact Hp.
  - intros c Harg Hc0 Hc Hoff Hcat.
    assert (Ht : truthy (arg_category req) = Some c) by (apply truthy_some; auto).
    rewrite (products_filtered _ _ _ Ht).
    destruct (paginate_cases
                (filter (category_id_eq (Some (CInt c))) (active_products (db w)))
                [c] (requested_page req) 12 w)
      as [[Hp _]|[[Hp [Hge [_ Hbad]]]|[Hp _]]].
    + apply bind_abort, Hp.
    + exfalso. cbn [forallb] in Hbad. change (Z.of_nat 12) with 12 in Hbad.
      assert (Hf : fits ((requested_page req - 1) * 12) = true)
        by (apply fits_spec; lia).
      rewrite Hf, Hc in Hbad. discriminate.
    + rewrite (bind_ok _ _ _ _ _ Hp). unfold bind, get_or_404.
      rewrite Hcat, Hc. reflexivity.
Qed.

Lemma products_page_is_active_and_filtered_witness :
  (List.length [gift_card_10; gift_card_25; gift_card_50] <= 12)%nat
  /\ Forall (fun p => In p sample_products /\ Product.is_active p = true)
            [gift_card_10; gift_card_25; gift_card_50]
  /\ (forall c, Some 1 = Some c -> c <> 0 ->
        Forall (fun p => Product.category_id p = Some (CInt c))
               [gift_card_10; gift_card_25; gift_card_50]
        /\ exists category,
             Category_get sample_db c = Some category
             /\ (CATEGORY_TITLE_PREFIX ++ "Cards")%string
                = (CATEGORY_TITLE_PREFIX ++ Category.name category)%string).
Proof.
  apply (proj1 (proj2 (products_page_is_active_and_filtered
                         (mkRequest GET (Some 1) None []) (as_user None sample_db)))
           (mkPagination [gift_card_10; gift_card_25; gift_card_50] 1 12 3)
           (CATEGORY_TITLE_PREFIX ++ "Cards")%string
           (as_user None sample_db)).
  reflexivity.
Defined.

(** C5 as written fails for category 0: the parameter is supplied, no
    category has id 0, and the answer is the unfiltered first page, with
    products of category 1 and a product of no category, not a
    not-found. *)
Lemma products_category_zero_is_not_a_filter :
  Category_get sample_db 0 = None
  /\ products (mkRequest GET (Some 0) None []) (as_user None sample_db)
     = (Ok (render_template
              (products_html
                 (mkPagination [gift_card_10; gift_card_25; gift_card_50; loose_item]
                               1 12 4)
                 ALL_PRODUCTS_TITLE)),
        as_user None sample_db)
  /\ Product.category_id gift_card_10 = Some (CInt 1)
  /\ Product.category_id gift_card_10 <> Some (CInt 0).
Proof.
  repeat split; try reflexivity. discriminate.
Qed.



(** ** Adding and listing products as an admin *)

Lemma admin_products_as_admin (w : World) :
  admin_session w ->
  admin_products w
  = (Ok (render_template (admin_products_html (Db.products (db w)))), w).
Proof.
  intros [uid [u [Hs [Hg Ha]]]]. admin_prefix.
  rewrite Hs, Hg. simpl. rewrite Ha. reflexivity.
Qed.

Lemma admin_add_product_post (req : Request) (env : Env) (w : World)
    (n ptext : string) (q : Q) :
  admin_session w ->
  method req = POST ->
  form_get (form req) "name" = Some n ->
  form_get (form req) "price" = Some ptext ->
  to_float ptext = Some q ->
  admin_add_product req env w
  = (Ok (redirect ep_admin_products),
     with_flash (with_product w (submitted_product req env (db w) n q))
                MSG_PRODUCT_ADDED "success").
Proof.
  intros [uid [u [Hs [Hg Ha]]]] Hm Hn Hp Hq.
  unfold admin_add_product, add_product. run_app.
  rewrite Hs, Hg. unfold not_admin. rewrite Ha. cbn [negb].
  rewrite Hm, Hn, Hp, Hq. reflexivity.
Qed.

Lemma admin_session_with_product (w : World) (p : Product.t) (m c : string) :
  admin_session w -> admin_session (with_flash (with_product w p) m c).
Proof.
  intros [uid [u H]]. exists uid, u. exact H.
Qed.

(** C6. For an admin, the admin listing is the whole Product table,
    inactive rows included.  After a POST to the add_product route that
    carries a name and a price, the listing is the former table followed
    by the new product, whose active flag is the one submitted, false
    when the form has no is_active. *)
Theorem admin_products_lists_every_product (w : World) :
  admin_session w ->
  admin_products w
  = (Ok (render_template (admin_products_html (Db.products (db w)))), w)
  /\ forall (req : Request) (env : Env) (n ptext : string) (q : Q),
       method req = POST ->
       form_get (form req) "name" = Some n ->
       form_get (form req) "price" = Some ptext ->
       to_float ptext = Some q ->
       exists (p : Product.t) (w' : World),
         admin_add_product req env w = (Ok (redirect ep_admin_products), w')
         /\ Product.name p = n
         /\ Product.is_active p = submitted_is_active req
         /\ (form_get (form req) "is_active" = None -> Product.is_active p = false)
         /\ admin_products w'
            = (Ok (render_template (admin_products_html (Db.products (db w) ++ [p]))),
               w')
         /\ forall p', In p' (Db.products (db w) ++ [p]) <->
                       In p' (Db.products (db w)) \/ p' = p.
Proof.
  intros Hadm. split; [apply admin_products_as_admin, Hadm|].
  intros req env n ptext q Hm Hn Hp Hq.
  exists (submitted_product req env (db w) n q).
  eexists. split; [eapply admin_add_product_post; eassumption|].
  repeat split.
  - intros Hnone. simpl. unfold submitted_is_active. rewrite Hnone. reflexivity.
  - rewrite admin_products_as_admin by (apply admin_session_with_product, Hadm).
    reflexivity.
  - intros Hin. apply in_app_or in Hin. destruct Hin as [Hin|[->|[]]]; auto.
  - intros [Hin| ->]; apply in_or_app; [now left | right; now left].
Qed.

Lemma admin_products_lists_every_product_witness :
  exists (p : Product.t) (w' : World),
    admin_add_product (mkRequest POST None None [("name", "Hidden"); ("price", "3.50")])
      sample_env (as_user (Some 1) sample_db)
    = (Ok (redirect ep_admin_products), w')
    /\ Product.name p = "Hidden"
    /\ Product.is_active p
       = submitted_is_active
           (mkRequest POST None None [("name", "Hidden"); ("price", "3.50")])
    /\ (form_get [("name", "Hidden"); ("price", "3.50")] "is_active" = None ->
        Product.is_active p = false)
    /\ admin_products w'
       = (Ok (render_template (admin_products_html (sample_products ++ [p]))), w')
    /\ forall p', In p' (sample_products ++ [p]) <-> In p' sample_products \/ p' = p.
Proof.
  assert (Hadm : admin_session (as_user (Some 1) sample_db)).
  { exists 1, sample_admin. repeat split; reflexivity. }
  apply (proj2 (admin_products_lists_every_product _ Hadm)
           (mkRequest POST None None [("name", "Hidden"); ("price", "3.50")])
           sample_env "Hidden" "3.50" (350 # 100));
    reflexivity.
Defined.




(** ** The hash string *)

Lemma split_dollar_some (s a b : string) :
  split_dollar s = Some (a, b) ->
  s = (a ++ String dollar b)%string /\ no_dollar a.
Proof.
  revert a b. induction s as [|c s IH]; simpl; intros a b H.
  - discriminate.
  - destruct (Ascii.eqb_spec c dollar) as [->|Hc].
    + inversion H; subst. split; reflexivity.
    + destruct (split_dollar s) as [[a' b']|] eqn:Hs; [|discriminate].
      inversion H; subst. destruct (IH a' b eq_refl) as [-> Hn].
      split; [reflexivity|].
      unfold no_dollar. simpl.
      destruct (Ascii.eqb_spec c dollar) as [->|_]; [contradiction|].
      unfold no_dollar in Hn. rewrite Hn. reflexivity.
Qed.

Lemma split_dollar_app (a b : string) :
  no_dollar a -> split_dollar (a ++ String dollar b) = Some (a, b).
Proof.
  unfold no_dollar. induction a as [|c a IH]; simpl; intros H.
  - reflexivity.
  - destruct (Ascii.eqb c dollar); [discriminate|].
    destruct (split_dollar a) as [[x y]|]; [discriminate|].
    rewrite (IH eq_refl). reflexivity.
Qed.

Lemma split_pwhash_join (method salt hashval : string) :
  no_dollar method -> no_dollar salt ->
  split_pwhash (join_pwhash method salt hashval) = Some (method, salt, hashval).
Proof.
  intros Hm Hs. unfold split_pwhash, join_pwhash.
  rewrite (split_dollar_app _ _ Hm), (split_dollar_app _ _ Hs). reflexivity.
Qed.

Lemma split_pwhash_some (pwhash method salt hashval : string) :
  split_pwhash pwhash = Some (method, salt, hashval) ->
  pwhash = join_pwhash method salt hashval.
Proof.
  unfold split_pwhash, join_pwhash. intros H.
  destruct (split_dollar pwhash) as [[m rest]|] eqn:H1; [|discriminate].
  destruct (split_dollar rest) as [[s h]|] eqn:H2; [|discriminate].
  inversion H; subst.
  apply split_dollar_some in H1. destruct H1 as [-> _].
  apply split_dollar_some in H2. destruct H2 as [-> _].
  reflexivity.
Qed.

Lemma no_dollar_of_chars (l : list ascii) :
  Forall (fun c => c <> dollar) l -> no_dollar (string_of_list_ascii l).
Proof.
  unfold no_dollar. induction 1 as [|c l Hc _ IH]; simpl.
  - reflexivity.
  - destruct (Ascii.eqb_spec c dollar) as [->|_]; [contradiction|].
    rewrite IH. reflexivity.
Qed.

Lemma SALT_CHARS_no_dollar :
  Forall (fun c => c <> dollar) (list_ascii_of_string SALT_CHARS).
Proof.
  apply Forall_forall. intros c Hc.
  assert (H : forallb (fun c => negb (Ascii.eqb c dollar))
                      (list_ascii_of_string SALT_CHARS) = true) by reflexivity.
  rewrite forallb_forall in H. specialize (H c Hc).
  apply negb_true_iff in H. apply Ascii.eqb_neq in H. exact H.
Qed.

Lemma gen_salt_no_dollar (choice : nat -> nat) (n : nat) :
  no_dollar (gen_salt choice n).
Proof.
  unfold gen_salt. apply no_dollar_of_chars.
  apply Forall_forall. intros c Hc. apply in_map_iff in Hc.
  destruct Hc as [i [<- _]].
  pose proof SALT_CHARS_no_dollar as Hall. rewrite Forall_forall in Hall.
  apply Hall. apply nth_In.
  change (List.length (list_ascii_of_string SALT_CHARS)) with 62%nat.
  apply Nat.mod_upper_bound. discriminate.
Qed.

(** ** Keys of the User table *)

Lemma NoDup_map_inj {A B} (f : A -> B) (l : list A) (a b : A) :
  NoDup (map f l) -> In a l -> In b l -> f a = f b -> a = b.
Proof.
  induction l as [|x l IH]; simpl; intros Hnd Ha Hb Hf; [contradiction|].
  inversion Hnd as [|y ys Hnotin Hnd']; subst.
  destruct Ha as [->|Ha], Hb as [->|Hb].
  - reflexivity.
  - exfalso. apply Hnotin. rewrite Hf. apply in_map, Hb.
  - exfalso. apply Hnotin. rewrite <- Hf. apply in_map, Ha.
  - apply IH; assumption.
Qed.

Lemma filter_by_email_found (d : Db.t) (u : User.t) :
  NoDup (map User.email (Db.users d)) ->
  In u (Db.users d) ->
  User_filter_by_email d (Some (User.email u)) = Some u.
Proof.
  intros Hnd Hin. unfold User_filter_by_email.
  destruct (find (fun r => String.eqb (User.email r) (User.email u)) (Db.users d))
    as [u'|] eqn:Hf.
  - apply find_some in Hf. destruct Hf as [Hin' He].
    apply String.eqb_eq in He.
    f_equal. eapply NoDup_map_inj; eauto.
  - pose proof (find_none _ _ Hf u Hin) as Hn. simpl in Hn.
    rewrite String.eqb_refl in Hn. discriminate.
Qed.

Lemma filter_by_email_some (d : Db.t) (email : option string) (u : User.t) :
  User_filter_by_email d email = Some u ->
  In u (Db.users d) /\ Some (User.email u) = email.
Proof.
  unfold User_filter_by_email. destruct email as [e|]; [|discriminate].
  intros H. apply find_some in H. destruct H as [Hin He].
  apply String.eqb_eq in He. subst. auto.
Qed.


Lemma User_get_updated (l : list User.t) (u : User.t) (now : Z) :
  NoDup (map User.id l) -> In u l ->
  find (fun x => User.id x =? User.id u)
       (map (fun x => if User.id x =? User.id u
                      then User.set_last_login x now else x) l)
  = Some (User.set_last_login u now).
Proof.
  induction l as [|x l IH]; simpl; intros Hnd Hin; [contradiction|].
  inversion Hnd as [|y ys Hnotin Hnd']; subst.
  destruct (Z.eqb_spec (User.id x) (User.id u)) as [He|Hne].
  - simpl. rewrite He, Z.eqb_refl.
    destruct Hin as [->|Hin]; [reflexivity|].
    exfalso. apply Hnotin. rewrite He. apply in_map, Hin.
  - destruct (Z.eqb_spec (User.id x) (User.id u)) as [He|_]; [contradiction|].
    destruct Hin as [->|Hin]; [contradiction|].
    apply IH; assumption.
Qed.

(** ** The keys of the User table stay unique *)

Lemma preserves_ret {A} (P : World -> Prop) (a : A) : preserves P (ret a).
Proof. intros w H. exact H. Qed.

Lemma preserves_abort {A} (P : World -> Prop) (s : Z) : preserves P (@abort A s).
Proof. intros w H. exact H. Qed.

Lemma preserves_bind {A B} (P : World -> Prop) (m : App A) (k : A -> App B) :
  preserves P m -> (forall a, preserves P (k a)) -> preserves P (bind m k).
Proof.
  intros Hm Hk w Hw. unfold bind.
  specialize (Hm w Hw). destruct (m w) as [[a|s] w']; simpl in Hm.
  - apply Hk, Hm.
  - exact Hm.
Qed.

Lemma preserves_raising {A} (P : World -> Prop) (r : option A) :
  preserves P (raising r).
Proof. destruct r; [apply preserves_ret | apply preserves_abort]. Qed.

Lemma preserves_compare_digest (P : World -> Prop) (digest hashval : string) :
  preserves P (compare_digest digest hashval).
Proof.
  unfold compare_digest. destruct (String.eqb digest hashval); [apply preserves_ret|].
  destruct (is_ascii digest && is_ascii hashval);
    [apply preserves_ret | apply preserves_abort].
Qed.

Lemma keys_get_db : preserves keys_unique get_db.
Proof. intros w H. exact H. Qed.

Lemma keys_get_session : preserves keys_unique get_session.
Proof. intros w H. exact H. Qed.

Lemma keys_set_session (s : Session.t) : preserves keys_unique (set_session s).
Proof. intros w H. exact H. Qed.

Lemma keys_flash (m c : string) : preserves keys_unique (flash m c).
Proof. intros w H. exact H. Qed.

Lemma max_id_bound (l : list Z) (x y : Z) :
  y <= fold_right Z.max y l /\ (In x l -> x <= fold_right Z.max y l).
Proof.
  induction l as [|z l [IHy IHx]]; simpl; [split; [lia | contradiction]|].
  split; [lia|]. intros [->|Hin]; [lia | specialize (IHx Hin); lia].
Qed.

Lemma next_id_above (l : list Z) (x : Z) : In x l -> x < next_id l.
Proof.
  unfold next_id. destruct l as [|y l]; [contradiction|].
  destruct (max_id_bound l x y) as [Hy Hx].
  intros [->|Hin]; [lia | specialize (Hx Hin); lia].
Qed.

Lemma next_id_fresh (l : list Z) : ~ In (next_id l) l.
Proof.
  intros Hin. apply next_id_above in Hin. lia.
Qed.

Lemma NoDup_snoc {A} (l : list A) (x : A) : NoDup l -> ~ In x l -> NoDup (l ++ [x]).
Proof.
  intros Hnd Hx. apply NoDup_app; [exact Hnd | repeat constructor; intros [] |].
  intros a Ha [<-|[]]. exact (Hx Ha).
Qed.

Lemma not_exists_column (f : User.t -> string) (v : string) (l : list User.t) :
  existsb (fun r => String.eqb (f r) v) l = false -> ~ In v (map f l).
Proof.
  intros He Hin. apply in_map_iff in Hin. destruct Hin as [r [Hf Hr]].
  assert (Ht : existsb (fun r => String.eqb (f r) v) l = true).
  { apply existsb_exists. exists r. split; [exact Hr|]. rewrite Hf. apply String.eqb_refl. }
  congruence.
Qed.

Lemma keys_add_user (username email : option string) (password : string)
    (first_name last_name : option string) (now : Z) :
  preserves keys_unique (add_user username email password first_name last_name now).
Proof.
  intros w [Hid [Hun Hem]]. unfold add_user. run_app.
  destruct username as [u|]; [|repeat split; assumption].
  destruct email as [e|]; [|repeat split; assumption].
  destruct (existsb (fun r => String.eqb (User.username r) u) (Db.users (db w)))
    eqn:Hu; [repeat split; assumption|].
  destruct (existsb (fun r => String.eqb (User.email r) e) (Db.users (db w)))
    eqn:He; [repeat split; assumption|].
  unfold keys_unique, users_wf. simpl. rewrite !map_app. simpl.
  repeat split; apply NoDup_snoc; try assumption.
  - apply next_id_fresh.
  - apply (not_exists_column User.username), Hu.
  - apply (not_exists_column User.email), He.
Qed.

Lemma keys_update_last_login (user : User.t) (now : Z) :
  preserves keys_unique (update_last_login user now).
Proof.
  intros w H. unfold update_last_login. run_app.
  unfold keys_unique, users_wf in *. simpl. rewrite !map_map.
  assert (E : forall (A : Type) (f : User.t -> A),
             (forall u, f (User.set_last_login u now) = f u) ->
             map (fun x => f (if User.id x =? User.id user
                              then User.set_last_login x now else x))
                 (Db.users (db w))
             = map f (Db.users (db w))).
  { intros A f Hf. apply map_ext. intros x.
    destruct (User.id x =? User.id user); [apply Hf | reflexivity]. }
  rewrite !E by reflexivity. exact H.
Qed.

Section KeysUnique.

Variable hash_internal : string -> string -> string -> option string.
Variable default_method : string.

Lemma keys_check_password_hash (pwhash : string) (password : option string) :
  preserves keys_unique (check_password_hash hash_internal pwhash password).
Proof.
  unfold check_password_hash.
  destruct (split_pwhash pwhash) as [[[m s] h]|]; [|apply preserves_ret].
  destruct password as [pw|]; [|apply preserves_abort].
  apply preserves_bind;
    [apply preserves_raising | intros; apply preserves_compare_digest].
Qed.

Lemma keys_generate_password_hash (env : Env) (password : option string) :
  preserves keys_unique
    (generate_password_hash hash_internal default_method env password).
Proof.
  unfold generate_password_hash. destruct password as [pw|]; [|apply preserves_abort].
  apply preserves_bind; [apply preserves_raising | intros; apply preserves_ret].
Qed.

(** Whatever they are sent, [login] and [register] leave the primary key
    and the two UNIQUE columns of the User table without duplicates. *)
Lemma login_register_keep_keys_unique (req : Request) (env : Env) :
  preserves keys_unique (login hash_internal req env)
  /\ preserves keys_unique (register hash_internal default_method req env).
Proof.
  split.
  - unfold login. destruct (method req); [apply preserves_ret|].
    apply preserves_bind; [apply keys_get_db|]. intros d.
    apply preserves_bind.
    + destruct (User_filter_by_email d _) as [u|]; [|apply preserves_ret].
      apply preserves_bind; [apply keys_check_password_hash|].
      intros; apply preserves_ret.
    + intros [user|].
      * apply preserves_bind; [apply keys_get_session|]. intros s.
        apply preserves_bind; [apply keys_set_session|]. intros _.
        apply preserves_bind; [apply keys_update_last_login|]. intros _.
        destruct (User.is_admin user); apply preserves_ret.
      * apply preserves_bind; [apply keys_flash | intros; apply preserves_ret].
  - unfold register. destruct (method req); [apply preserves_ret|].
    cbv zeta.
    match goal with |- preserves _ (if ?b then _ else _) => destruct b end.
    + apply preserves_bind; [apply keys_flash | intros; apply preserves_ret].
    + apply preserves_bind; [apply keys_get_db|]. intros d.
      destruct (find _ (Db.users d)).
      * apply preserves_bind; [apply keys_flash | intros; apply preserves_ret].
      * apply preserves_bind; [apply keys_generate_password_hash|]. intros pwhash.
        apply preserves_bind; [apply keys_add_user|]. intros _.
        apply preserves_bind; [apply keys_flash | intros; apply preserves_ret].
Qed.

End KeysUnique.

(** ** Login *)

Section Accounts.

Variable hash_internal : string -> string -> string -> option string.
Variable default_method : string.

Lemma check_password_hash_pure (pwhash : string) (password : option string)
    (w : World) :
  check_password_hash hash_internal pwhash password w
  = (fst (check_password_hash hash_internal pwhash password w), w).
Proof.
  unfold check_password_hash.
  destruct (split_pwhash pwhash) as [[[m s] h]|]; [|reflexivity].
  destruct password as [pw|]; [|reflexivity].
  unfold bind, raising, compare_digest, ret, abort.
  destruct (hash_internal m s pw) as [d|]; [|reflexivity].
  destruct (String.eqb d h); [reflexivity|].
  destruct (is_ascii d && is_ascii h); reflexivity.
Qed.

Lemma login_post (req : Request) (env : Env) (w : World) :
  method req = POST ->
  login hash_internal req env w
  = match User_filter_by_email (db w) (form_get (form req) "email") with
    | Some u =>
        match fst (check_password_hash hash_internal (User.password u)
                     (form_get (form req) "password") w) with
        | Ok true =>
            (Ok (redirect (if User.is_admin u
                           then ep_admin_dashboard else ep_index)),
             logged_in w u (utcnow env))
        | Ok false =>
            (Ok (render_template login_html),
             with_flash w MSG_INVALID_CREDENTIALS "danger")
        | Abort s => (Abort s, w)
        end
    | None =>
        (Ok (render_template login_html),
         with_flash w MSG_INVALID_CREDENTIALS "danger")
    end.
Proof.
  intros Hm. unfold login. rewrite Hm.
  unfold bind at 1. unfold get_db. cbv beta iota zeta.
  destruct (User_filter_by_email (db w) (form_get (form req) "email")) as [u|].
  - unfold bind at 1. unfold bind at 1.
    rewrite check_password_hash_pure.
    destruct (fst (check_password_hash hash_internal (User.password u)
                     (form_get (form req) "password") w)) as [[|]|s].
    + unfold update_last_login. run_app. destruct (User.is_admin u); reflexivity.
    + reflexivity.
    + reflexivity.
  - reflexivity.
Qed.

Lemma filter_by_email_iff (d : Db.t) (email : option string) (u : User.t) :
  users_wf d ->
  (In u (Db.users d) /\ Some (User.email u) = email)
  <-> User_filter_by_email d email = Some u.
Proof.
  intros [_ [_ Hnd]]. split.
  - intros [Hin <-]. apply filter_by_email_found; assumption.
  - apply filter_by_email_some.
Qed.

(** No password passes the check against itself, if no digest closes the
    loop. *)
Hypothesis no_fixed_point :
  forall method salt hashval,
    hash_internal method salt (join_pwhash method salt hashval) <> Some hashval.

Lemma raw_password_fails_check (pw : string) (w : World) :
  fst (check_password_hash hash_internal pw (Some pw) w) <> Ok true.
Proof.
  unfold check_password_hash.
  destruct (split_pwhash pw) as [[[m s] h]|] eqn:Hsplit; [|discriminate].
  apply split_pwhash_some in Hsplit.
  unfold bind, raising, compare_digest, ret, abort.
  destruct (hash_internal m s pw) as [d|] eqn:Hd; [|discriminate].
  destruct (String.eqb d h) eqn:Hb.
  - apply String.eqb_eq in Hb. subst d. intros _.
    apply (no_fixed_point m s h). rewrite <- Hsplit. exact Hd.
  - destruct (is_ascii d && is_ascii h); discriminate.
Qed.

(** C3. A login POST is answered with a redirect exactly when some user
    has the submitted email and [check_password_hash] accepts the
    submitted password against that user's stored password field.  It
    then puts the user's id in the session, sets the user's last_login to
    the time of the request, and redirects to the admin dashboard if the
    user is an admin and to the home page if not.  A user whose stored
    password field is the submitted password itself is not logged in.
    The User table is taken with its keys unique, and the digest without
    a fixed point. *)
Theorem login_succeeds_exactly_on_matching_hash
    (req : Request) (env : Env) (w : World) :
  method req = POST ->
  users_wf (db w) ->
  (redirected (login hash_internal req env w)
   <-> exists u,
         In u (Db.users (db w))
         /\ Some (User.email u) = form_get (form req) "email"
         /\ fst (check_password_hash hash_internal (User.password u)
                   (form_get (form req) "password") w) = Ok true)
  /\ (forall u,
        In u (Db.users (db w)) ->
        Some (User.email u) = form_get (form req) "email" ->
        fst (check_password_hash hash_internal (User.password u)
               (form_get (form req) "password") w) = Ok true ->
        login hash_internal req env w
        = (Ok (redirect (if User.is_admin u then ep_admin_dashboard else ep_index)),
           logged_in w u (utcnow env))
        /\ Session.user_id (session (snd (login hash_internal req env w)))
           = Some (User.id u)
        /\ (exists u', User_get (db (snd (login hash_internal req env w))) (User.id u)
                       = Some u'
                       /\ User.last_login u' = Some (utcnow env)
                       /\ User.email u' = User.email u
                       /\ User.password u' = User.password u))
  /\ (forall u,
        In u (Db.users (db w)) ->
        Some (User.email u) = form_get (form req) "email" ->
        Some (User.password u) = form_get (form req) "password" ->
        ~ redirected (login hash_internal req env w)).
Proof.
  intros Hm Hwf.
  pose proof (login_post req env w Hm) as Hrun.
  assert (Hsuccess : forall u,
            In u (Db.users (db w)) ->
            Some (User.email u) = form_get (form req) "email" ->
            fst (check_password_hash hash_internal (User.password u)
                   (form_get (form req) "password") w) = Ok true ->
            login hash_internal req env w
            = (Ok (redirect (if User.is_admin u
                             then ep_admin_dashboard else ep_index)),
               logged_in w u (utcnow env))).
  { intros u Hin He Hc.
    rewrite (proj1 (filter_by_email_iff _ _ _ Hwf) (conj Hin He)) in Hrun.
    rewrite Hc in Hrun. exact Hrun. }
  assert (Honly : redirected (login hash_internal req env w) ->
            exists u,
              In u (Db.users (db w))
              /\ Some (User.email u) = form_get (form req) "email"
              /\ fst (check_password_hash hash_internal (User.password u)
                        (form_get (form req) "password") w) = Ok true).
  { intros [e He]. rewrite Hrun in He.
    destruct (User_filter_by_email (db w) (form_get (form req) "email"))
      as [u|] eqn:Hf; [|discriminate].
    apply filter_by_email_some in Hf. destruct Hf as [Hin Hmail].
    exists u. repeat split; try assumption.
    destruct (fst (check_password_hash hash_internal (User.password u)
                     (form_get (form req) "password") w)) as [[|]|s];
      [reflexivity | discriminate | discriminate]. }
  split; [|split].
  - split; [exact Honly|].
    intros [u [Hin [He Hc]]]. rewrite (Hsuccess u Hin He Hc).
    eexists. reflexivity.
  - intros u Hin He Hc. rewrite (Hsuccess u Hin He Hc).
    split; [reflexivity|]. split; [reflexivity|].
    exists (User.set_last_login u (utcnow env)).
    split; [|repeat split].
    unfold User_get, logged_in. simpl.
    apply User_get_updated; [apply Hwf | exact Hin].
  - intros u Hin He Hraw Hred.
    destruct (Honly Hred) as [u' [Hin' [He' Hc']]].
    assert (u' = u).
    { destruct Hwf as [_ [_ Hnd]]. eapply NoDup_map_inj; eauto. congruence. }
    subst u'. rewrite <- Hraw in Hc'.
    exact (raw_password_fails_check _ _ Hc').
Qed.


(** ** Registration *)

Lemma field_is_true (v : option string) (column : string) :
  field_is v column = true <-> Some column = v.
Proof.
  unfold field_is. destruct v as [s|].
  - rewrite String.eqb_eq. split; [intros ->; reflexivity | intros H; now inversion H].
  - split; discriminate.
Qed.

Lemma existing_user_found (username email : option string) (l : list User.t) :
  (exists u, In u l /\ takes username email u) ->
  exists u, find (fun r => field_is username (User.username r)
                           || field_is email (User.email r)) l = Some u.
Proof.
  intros [u [Hin Ht]].
  destruct (find _ l) as [u'|] eqn:Hf; [eauto|].
  pose proof (find_none _ _ Hf u Hin) as Hn. simpl in Hn.
  apply orb_false_iff in Hn. destruct Hn as [Hn1 Hn2].
  destruct Ht as [Ht|Ht]; apply field_is_true in Ht; congruence.
Qed.

Lemma existing_user_none (username email : option string) (l : list User.t) :
  ~ (exists u, In u l /\ takes username email u) ->
  find (fun r => field_is username (User.username r)
                 || field_is email (User.email r)) l = None.
Proof.
  intros Hn. destruct (find _ l) as [u|] eqn:Hf; [|reflexivity].
  exfalso. apply Hn. apply find_some in Hf. destruct Hf as [Hin Hb].
  exists u. split; [exact Hin|].
  apply orb_true_iff in Hb. destruct Hb as [Hb|Hb]; apply field_is_true in Hb;
    [left | right]; exact Hb.
Qed.

Lemma nobody_takes (un em : string) (l : list User.t) :
  ~ (exists u, In u l /\ takes (Some un) (Some em) u) ->
  existsb (fun r => String.eqb (User.username r) un) l
  || existsb (fun r => String.eqb (User.email r) em) l = false.
Proof.
  intros Hn. apply orb_false_iff. split.
  - destruct (existsb _ l) eqn:He; [|reflexivity].
    exfalso. apply Hn. apply existsb_exists in He. destruct He as [u [Hin Hb]].
    apply String.eqb_eq in Hb. exists u. split; [exact Hin|]. left. now rewrite Hb.
  - destruct (existsb _ l) eqn:He; [|reflexivity].
    exfalso. apply Hn. apply existsb_exists in He. destruct He as [u [Hin Hb]].
    apply String.eqb_eq in Hb. exists u. split; [exact Hin|]. right. now rewrite Hb.
Qed.

Lemma passwords_differ (a b : option string) :
  a <> b ->
  negb (match a, b with
        | Some x, Some y => String.eqb x y
        | None, None => true
        | _, _ => false
        end) = true.
Proof.
  intros H. destruct a as [x|], b as [y|]; try reflexivity.
  - destruct (String.eqb_spec x y) as [->|_]; [contradiction H; reflexivity | reflexivity].
  - contradiction H; reflexivity.
Qed.

Lemma passwords_agree (a b : option string) :
  a = b ->
  negb (match a, b with
        | Some x, Some y => String.eqb x y
        | None, None => true
        | _, _ => false
        end) = false.
Proof.
  intros <-. destruct a as [x|]; [rewrite String.eqb_refl|]; reflexivity.
Qed.

Lemma register_mismatch (req : Request) (env : Env) (w : World) :
  method req = POST ->
  form_get (form req) "password" <> form_get (form req) "confirm_password" ->
  register hash_internal default_method req env w
  = (Ok (redirect ep_register), with_flash w MSG_PASSWORD_MISMATCH "danger").
Proof.
  intros Hm Hd. unfold register. rewrite Hm.
  cbv zeta. rewrite (passwords_differ _ _ Hd). reflexivity.
Qed.

Lemma register_taken (req : Request) (env : Env) (w : World) :
  method req = POST ->
  form_get (form req) "password" = form_get (form req) "confirm_password" ->
  (exists u, In u (Db.users (db w))
             /\ takes (form_get (form req) "username")
                      (form_get (form req) "email") u) ->
  register hash_internal default_method req env w
  = (Ok (redirect ep_register), with_flash w MSG_ALREADY_USED "danger").
Proof.
  intros Hm He Ht. unfold register. rewrite Hm.
  cbv zeta. rewrite (passwords_agree _ _ He).
  unfold bind at 1. unfold get_db. cbv beta iota.
  destruct (existing_user_found _ _ _ Ht) as [u Hf]. rewrite Hf. reflexivity.
Qed.

(** The default method is one the library knows, and its name holds no
    "$". *)
Hypothesis default_method_plain : no_dollar default_method.
Hypothesis default_method_known :
  forall salt pw, hash_internal default_method salt pw <> None.

Lemma register_stores (req : Request) (env : Env) (w : World)
    (un em pw digest : string) :
  method req = POST ->
  form_get (form req) "password" = form_get (form req) "confirm_password" ->
  ~ (exists u, In u (Db.users (db w))
               /\ takes (form_get (form req) "username")
                        (form_get (form req) "email") u) ->
  form_get (form req) "username" = Some un ->
  form_get (form req) "email" = Some em ->
  form_get (form req) "password" = Some pw ->
  hash_internal default_method (gen_salt (choice env) 16) pw = Some digest ->
  register hash_internal default_method req env w
  = (Ok (redirect ep_login),
     with_flash
       (with_user w
          (registered_user req env (db w) un em
             (join_pwhash default_method (gen_salt (choice env) 16) digest)))
       MSG_ACCOUNT_CREATED "success").
Proof.
  intros Hm He Hfree Hun Hem Hpw Hd. unfold register. rewrite Hm.
  cbv zeta. rewrite (passwords_agree _ _ He).
  unfold bind at 1. unfold get_db. cbv beta iota.
  rewrite (existing_user_none _ _ _ Hfree).
  rewrite Hun, Hem in Hfree. apply nobody_takes in Hfree.
  rewrite Hpw, Hun, Hem.
  unfold generate_password_hash, add_user, raising. rewrite Hd.
  run_app. rewrite Hfree. reflexivity.
Qed.

Lemma generated_hash_checks (salt pw digest : string) (w : World) :
  no_dollar salt ->
  hash_internal default_method salt pw = Some digest ->
  fst (check_password_hash hash_internal
         (join_pwhash default_method salt digest) (Some pw) w) = Ok true.
Proof.
  intros Hs Hd. unfold check_password_hash.
  rewrite (split_pwhash_join _ _ _ default_method_plain Hs).
  unfold bind, raising, compare_digest, ret. rewrite Hd.
  rewrite String.eqb_refl. reflexivity.
Qed.

Lemma generated_hash_is_not_raw (salt pw digest : string) :
  hash_internal default_method salt pw = Some digest ->
  join_pwhash default_method salt digest <> pw.
Proof.
  intros Hd Heq. apply (no_fixed_point default_method salt digest).
  rewrite Heq. exact Hd.
Qed.

(** C2, as the code has it.  A register POST whose password and
    confirm_password differ is turned back to the register page with the
    mismatch message, and one whose username or email some user already
    has with the already-used message; neither stores a user.  Otherwise,
    when the form carries a username, an email and a password, one user
    is stored with them; the stored password field is the hash string of
    the submitted password under a fresh salt, differs from the password,
    and passes the check against it; the answer redirects to the login
    page; and a later register POST with the same email is turned
    back. *)
Theorem register_rejects_or_stores_hashed_password
    (req : Request) (env : Env) (w : World) :
  method req = POST ->
  (form_get (form req) "password" <> form_get (form req) "confirm_password" ->
   register hash_internal default_method req env w
   = (Ok (redirect ep_register), with_flash w MSG_PASSWORD_MISMATCH "danger"))
  /\ (form_get (form req) "password" = form_get (form req) "confirm_password" ->
      (exists u, In u (Db.users (db w))
                 /\ takes (form_get (form req) "username")
                          (form_get (form req) "email") u) ->
      register hash_internal default_method req env w
      = (Ok (redirect ep_register), with_flash w MSG_ALREADY_USED "danger"))
  /\ (forall un em pw,
        form_get (form req) "password" = form_get (form req) "confirm_password" ->
        ~ (exists u, In u (Db.users (db w))
                     /\ takes (form_get (form req) "username")
                              (form_get (form req) "email") u) ->
        form_get (form req) "username" = Some un ->
        form_get (form req) "email" = Some em ->
        form_get (form req) "password" = Some pw ->
        exists (u : User.t) (digest : string) (w' : World),
          register hash_internal default_method req env w
          = (Ok (redirect ep_login), w')
          /\ Db.users (db w') = Db.users (db w) ++ [u]
          /\ User.username u = un
          /\ User.email u = em
          /\ User.is_admin u = false
          /\ hash_internal default_method (gen_salt (choice env) 16) pw = Some digest
          /\ User.password u
             = join_pwhash default_method (gen_salt (choice env) 16) digest
          /\ User.password u <> pw
          /\ fst (check_password_hash hash_internal (User.password u) (Some pw) w')
             = Ok true
          /\ (forall req2 env2,
                method req2 = POST ->
                form_get (form req2) "password"
                = form_get (form req2) "confirm_password" ->
                form_get (form req2) "email" = Some em ->
                register hash_internal default_method req2 env2 w'
                = (Ok (redirect ep_register),
                   with_flash w' MSG_ALREADY_USED "danger"))).
Proof.
  intros Hm. split; [apply register_mismatch, Hm|].
  split; [apply register_taken, Hm|].
  intros un em pw He Hfree Hun Hem Hpw.
  destruct (hash_internal default_method (gen_salt (choice env) 16) pw)
    as [digest|] eqn:Hd; [|destruct (default_method_known _ _ Hd)].
  eexists; exists digest; eexists.
  split; [apply (register_stores req env w un em pw digest); assumption|].
  split; [reflexivity|]. split; [reflexivity|]. split; [reflexivity|].
  split; [reflexivity|]. split; [reflexivity|]. split; [reflexivity|].
  split; [apply generated_hash_is_not_raw, Hd|].
  split; [apply generated_hash_checks; [apply gen_salt_no_dollar | exact Hd]|].
  intros req2 env2 Hm2 He2 Hem2.
  apply register_taken; [assumption | assumption |].
  eexists. split.
  - simpl. apply in_or_app. right. left. reflexivity.
  - right. rewrite Hem2. reflexivity.
Qed.

End Accounts.

(** ** The handlers on the sample data *)

Lemma string_length_app (a b : string) :
  String.length (a ++ b) = (String.length a + String.length b)%nat.
Proof.
  induction a as [|c a IH]; simpl; [reflexivity | now rewrite IH].
Qed.

Lemma sample_digest_no_fixed_point (method salt hashval : string) :
  sample_digest method salt (join_pwhash method salt hashval) <> Some hashval.
Proof.
  unfold sample_digest, join_pwhash. intros H. inversion H as [Heq].
  apply (f_equal String.length) in Heq.
  repeat (rewrite string_length_app in Heq; simpl in Heq).
  lia.
Qed.

Lemma sample_method_plain : no_dollar sample_method.
Proof. reflexivity. Qed.

Lemma sample_digest_known (salt pw : string) :
  sample_digest sample_method salt pw <> None.
Proof. discriminate. Qed.

Lemma sample_db_wf : users_wf sample_db.
Proof.
  unfold users_wf. simpl.
  repeat split; repeat constructor; simpl; intuition discriminate.
Qed.

Lemma login_succeeds_exactly_on_matching_hash_witness :
  login sample_digest
    (mkRequest POST None None [("email", "a@x.com"); ("password", "pw1")])
    sample_env (as_user None sample_db)
  = (Ok (redirect ep_index),
     logged_in (as_user None sample_db) sample_customer 1700000000).
Proof.
  pose proof (login_succeeds_exactly_on_matching_hash sample_digest
                sample_digest_no_fixed_point
                (mkRequest POST None None [("email", "a@x.com"); ("password", "pw1")])
                sample_env (as_user None sample_db) eq_refl sample_db_wf)
    as [_ [H _]].
  apply (H sample_customer).
  - right. left. reflexivity.
  - reflexivity.
  - reflexivity.
Defined.



Lemma register_rejects_or_stores_hashed_password_witness :
  exists (u : User.t) (digest : string) (w' : World),
    register sample_digest sample_method
      (mkRequest POST None None
         [("username", "u2"); ("email", "b@x.com");
          ("password", "pw2"); ("confirm_password", "pw2")])
      sample_env (as_user None sample_db)
    = (Ok (redirect ep_login), w')
    /\ Db.users (db w') = Db.users sample_db ++ [u]
    /\ User.username u = "u2"
    /\ User.email u = "b@x.com"
    /\ User.is_admin u = false
    /\ sample_digest sample_method (gen_salt (choice sample_env) 16) "pw2" = Some digest
    /\ User.password u
       = join_pwhash sample_method (gen_salt (choice sample_env) 16) digest
    /\ User.password u <> "pw2"
    /\ fst (check_password_hash sample_digest (User.password u) (Some "pw2") w')
       = Ok true
    /\ (forall req2 env2,
          method req2 = POST ->
          form_get (form req2) "password" = form_get (form req2) "confirm_password" ->
          form_get (form req2) "email" = Some "b@x.com" ->
          register sample_digest sample_method req2 env2 w'
          = (Ok (redirect ep_register), with_flash w' MSG_ALREADY_USED "danger")).
Proof.
  pose proof (register_rejects_or_stores_hashed_password sample_digest sample_method
                sample_digest_no_fixed_point sample_method_plain sample_digest_known
                (mkRequest POST None None
                   [("username", "u2"); ("email", "b@x.com");
                    ("password", "pw2"); ("confirm_password", "pw2")])
                sample_env (as_user None sample_db) eq_refl)
    as [_ [_ H]].
  apply (H "u2" "b@x.com" "pw2").
  - reflexivity.
  - intros [u [Hin Ht]]. simpl in Hin.
    destruct Hin as [<-|[<-|[]]]; destruct Ht as [Ht|Ht]; discriminate Ht.
  - reflexivity.
  - reflexivity.
  - reflexivity.
Defined.

(** C2 as written fails for a form without a username: the passwords
    agree, no user has the email, and yet no user is stored; the request
    ends with status 500. *)
Lemma register_without_username_stores_nothing :
  form_get [("email", "new@x.com"); ("password", "pw"); ("confirm_password", "pw")]
           "password"
  = form_get [("email", "new@x.com"); ("password", "pw"); ("confirm_password", "pw")]
             "confirm_password"
  /\ ~ (exists u,
          In u (Db.users sample_db)
          /\ takes None (Some "new@x.com") u)
  /\ register sample_digest sample_method
       (mkRequest POST None None
          [("email", "new@x.com"); ("password", "pw"); ("confirm_password", "pw")])
       sample_env (as_user None sample_db)
     = (Abort 500, as_user None sample_db).
Proof.
  split; [reflexivity|]. split; [|reflexivity].
  intros [u [Hin Ht]]. simpl in Hin.
  destruct Hin as [<-|[<-|[]]]; destruct Ht as [Ht|Ht]; discriminate Ht.
Qed.

(** The scenario of the specification: register, register again with the
    same email, log in, log out, ask for /admin. *)
Example scenario_register_login_logout :
  let reg := mkRequest POST None None
               [("username", "u9"); ("email", "z@x.com");
                ("password", "pw9"); ("confirm_password", "pw9")] in
  let again := mkRequest POST None None
                 [("username", "other"); ("email", "z@x.com");
                  ("password", "x"); ("confirm_password", "x")] in
  let signin := mkRequest POST None None [("email", "z@x.com"); ("password", "pw9")] in
  let w0 := as_user None sample_db in
  let w1 := snd (register sample_digest sample_method reg sample_env w0) in
  let w2 := snd (register sample_digest sample_method again sample_env w1) in
  let w3 := snd (login sample_digest signin sample_env w2) in
  let w4 := snd (logout w3) in
  fst (register sample_digest sample_method reg sample_env w0) = Ok (redirect ep_login)
  /\ fst (register sample_digest sample_method again sample_env w1)
     = Ok (redirect ep_register)
  /\ List.length (Db.users (db w2)) = 3%nat
  /\ fst (login sample_digest signin sample_env w2) = Ok (redirect ep_index)
  /\ Session.user_id (session w3) = Some 3
  /\ Session.user_id (session w4) = None
  /\ fst (admin_dashboard w4) = Ok (redirect ep_login).
Proof.
  cbv zeta. repeat split; vm_compute; reflexivity.
Qed.

(** * Further properties *)

(** ** What every handler keeps *)

Lemma preserves_same {A} (P : World -> Prop) (m : App A) :
  (forall w, snd (m w) = w) -> preserves P m.
Proof. intros H w Hw. rewrite H. exact Hw. Qed.

Lemma preserves_get_or_404 {A} (P : World -> Prop) (row : option A) (ident : Z) :
  preserves P (get_or_404 row ident).
Proof.
  unfold get_or_404. destruct row; [apply preserves_ret|].
  destruct (fits ident); apply preserves_abort.
Qed.

Lemma preserves_paginate (P : World -> Prop) (q : list Product.t) (params : list Z)
    (page : Z) (n : nat) :
  preserves P (paginate q params page n).
Proof.
  apply preserves_same. intros w. apply paginate_same.
Qed.

Section Kept.

Variable hash_internal : string -> string -> string -> option string.
Variable default_method : string.
Variable P : World -> Prop.

Hypothesis P_flash : forall m c, preserves P (flash m c).
Hypothesis P_set_session : forall s, preserves P (set_session s).
Hypothesis P_update_last_login : forall u now, preserves P (update_last_login u now).
Hypothesis P_add_user :
  forall un em pw fn ln now, preserves P (add_user un em pw fn ln now).
Hypothesis P_add_product :
  forall n d pr c a now, preserves P (add_product n d pr c a now).

Ltac kept :=
  repeat first
    [ apply preserves_ret
    | apply preserves_abort
    | apply preserves_raising
    | apply preserves_compare_digest
    | apply preserves_get_or_404
    | apply preserves_paginate
    | apply P_flash
    | apply P_set_session
    | apply P_update_last_login
    | apply P_add_user
    | apply P_add_product
    | apply preserves_same; reflexivity
    | apply preserves_bind; [|intro]
    | match goal with
      | |- preserves _ (match ?x with _ => _ end) => destruct x
      end ].

Lemma kept_check_password_hash (pwhash : string) (password : option string) :
  preserves P (check_password_hash hash_internal pwhash password).
Proof. unfold check_password_hash. kept. Qed.

Lemma kept_generate_password_hash (env : Env) (password : option string) :
  preserves P (generate_password_hash hash_internal default_method env password).
Proof. unfold generate_password_hash. kept. Qed.

Lemma kept_index : preserves P index.
Proof. unfold index. kept. Qed.

Lemma kept_products (req : Request) : preserves P (products req).
Proof. unfold products. cbv zeta. kept. Qed.

Lemma kept_product_detail (product_id : Z) : preserves P (product_detail product_id).
Proof. unfold product_detail. kept. Qed.

Lemma kept_login (req : Request) (env : Env) :
  preserves P (login hash_internal req env).
Proof.
  unfold login. cbv zeta.
  destruct (method req); [kept|].
  apply preserves_bind; [kept|]. intros d.
  apply preserves_bind.
  - destruct (User_filter_by_email d _); [|kept].
    apply preserves_bind; [apply kept_check_password_hash | intro; kept].
  - intros [user|]; kept.
Qed.

Lemma kept_register (req : Request) (env : Env) :
  preserves P (register hash_internal default_method req env).
Proof.
  unfold register. cbv zeta.
  destruct (method req); [kept|].
  match goal with |- preserves _ (if ?b then _ else _) => destruct b end; [kept|].
  apply preserves_bind; [kept|]. intros d.
  destruct (find _ (Db.users d)); [kept|].
  apply preserves_bind; [apply kept_generate_password_hash|]. intros pwhash. kept.
Qed.

Lemma kept_logout : preserves P logout.
Proof. unfold logout. kept. Qed.

Lemma kept_admin_dashboard : preserves P admin_dashboard.
Proof. unfold admin_dashboard. cbv zeta. kept. Qed.

Lemma kept_admin_products : preserves P admin_products.
Proof. unfold admin_products. cbv zeta. kept. Qed.

Lemma kept_admin_view (r : AdminRoute) (req : Request) (env : Env) :
  preserves P (admin_view r req env).
Proof.
  destruct r; simpl; unfold admin_dashboard, admin_products, admin_add_product;
    cbv zeta; kept.
Qed.

Lemma kept_dispatch (r : Route) (req : Request) (env : Env) :
  preserves P (dispatch hash_internal default_method r req env).
Proof.
  unfold dispatch.
  destruct (method req), (accepts_post r), r;
    first [ apply preserves_abort
          | apply kept_index | apply kept_products | apply kept_product_detail
          | apply kept_login | apply kept_register | apply kept_logout
          | apply kept_admin_view ].
Qed.

End Kept.

(** ** Keys stay unique on every route *)

Lemma keys_ok_same_db (w w' : World) : db w' = db w -> keys_ok w -> keys_ok w'.
Proof. unfold keys_ok. intros ->. auto. Qed.

Lemma keys_ok_flash (m c : string) : preserves keys_ok (flash m c).
Proof. intros w H. exact H. Qed.

Lemma keys_ok_set_session (s : Session.t) : preserves keys_ok (set_session s).
Proof. intros w H. exact H. Qed.

Lemma update_last_login_products (user : User.t) (now : Z) (w : World) :
  Db.products (db (snd (update_last_login user now w))) = Db.products (db w)
  /\ Db.categories (db (snd (update_last_login user now w))) = Db.categories (db w).
Proof. split; reflexivity. Qed.

Lemma add_user_products (un em : option string) (pw : string)
    (fn ln : option string) (now : Z) (w : World) :
  Db.products (db (snd (add_user un em pw fn ln now w))) = Db.products (db w)
  /\ Db.categories (db (snd (add_user un em pw fn ln now w))) = Db.categories (db w).
Proof.
  unfold add_user. run_app.
  destruct un; [|split; reflexivity]. destruct em; [|split; reflexivity].
  destruct (_ || _); split; reflexivity.
Qed.

Lemma add_product_cases (n d pr c : option string) (a : bool) (now : Z) (w : World) :
  (exists s, add_product n d pr c a now w = (Abort s, w))
  \/ (exists name ptext q,
        n = Some name /\ pr = Some ptext /\ to_float ptext = Some q
        /\ add_product n d pr c a now w
           = (Ok tt,
              with_product w
                (Product.mk (next_id (map Product.id (Db.products (db w)))) name d q
                            None None (option_map to_cell c) a now))).
Proof.
  unfold add_product. run_app.
  destruct n as [name|]; [|left; eexists; reflexivity].
  destruct pr as [ptext|]; [|left; eexists; reflexivity].
  destruct (to_float ptext) as [q|] eqn:Hq; [|left; eexists; reflexivity].
  right. exists name, ptext, q. repeat split; auto.
Qed.

Lemma keys_ok_update_last_login (user : User.t) (now : Z) :
  preserves keys_ok (update_last_login user now).
Proof.
  intros w [Hu Hp]. split.
  - apply (keys_update_last_login user now w Hu).
  - exact Hp.
Qed.

Lemma keys_ok_add_user (un em : option string) (pw : string)
    (fn ln : option string) (now : Z) :
  preserves keys_ok (add_user un em pw fn ln now).
Proof.
  intros w [Hu Hp]. split.
  - apply (keys_add_user un em pw fn ln now w Hu).
  - rewrite (proj1 (add_user_products un em pw fn ln now w)). exact Hp.
Qed.

Lemma keys_ok_add_product (n d pr c : option string) (a : bool) (now : Z) :
  preserves keys_ok (add_product n d pr c a now).
Proof.
  intros w [Hu Hp].
  destruct (add_product_cases n d pr c a now w)
    as [[s H]|[name [ptext [q [_ [_ [_ H]]]]]]]; rewrite H; simpl.
  - split; assumption.
  - split; [exact Hu|]. simpl. rewrite map_app. simpl.
    apply NoDup_snoc; [exact Hp | apply next_id_fresh].
Qed.

Lemma keys_ok_add_admin (pwhash : string) (now : Z) :
  preserves keys_ok (add_admin pwhash now).
Proof.
  intros w [[Hid [Hun Hem]] Hp]. unfold add_admin. run_app.
  destruct (existsb (fun r => String.eqb (User.username r) "admin") (Db.users (db w)))
    eqn:Hu; [repeat split; assumption|].
  destruct (existsb (fun r => String.eqb (User.email r) "admin@example.com")
                    (Db.users (db w)))
    eqn:He; [repeat split; assumption|].
  unfold keys_ok, users_wf. simpl. rewrite !map_app. simpl.
  repeat split; try apply NoDup_snoc; try assumption.
  - apply next_id_fresh.
  - apply (not_exists_column User.username), Hu.
  - apply (not_exists_column User.email), He.
Qed.

(** X1. The primary keys of the User and Product tables and the UNIQUE
    columns username and email hold no duplicate after a request to any
    route, and after start-up, if they held none before. *)
Theorem keys_stay_unique
    (hash_internal : string -> string -> string -> option string)
    (default_method : string) (r : Route) (req : Request) (env : Env) (w : World) :
  keys_ok w ->
  keys_ok (snd (dispatch hash_internal default_method r req env w))
  /\ keys_ok (snd (create_admin hash_internal default_method env w)).
Proof.
  intros H. split.
  - apply (kept_dispatch hash_internal default_method keys_ok
             keys_ok_flash keys_ok_set_session keys_ok_update_last_login
             keys_ok_add_user keys_ok_add_product r req env w H).
  - revert w H. change (preserves keys_ok
                          (create_admin hash_internal default_method env)).
    unfold create_admin. apply preserves_bind; [apply preserves_same; reflexivity|].
    intros d. cbv zeta.
    destruct (User_filter_by_email d (Some "admin@example.com"));
      [apply preserves_ret|].
    apply preserves_bind; [|intro; apply keys_ok_add_admin].
    apply kept_generate_password_hash.
Qed.

Lemma sample_keys_ok : keys_ok (as_user None sample_db).
Proof.
  split; [apply sample_db_wf|]. simpl.
  repeat constructor; simpl; intuition discriminate.
Qed.

Lemma keys_stay_unique_witness :
  keys_ok (snd (dispatch sample_digest sample_method url_register
                  (mkRequest POST None None
                     [("username", "u2"); ("email", "b@x.com");
                      ("password", "pw2"); ("confirm_password", "pw2")])
                  sample_env (as_user None sample_db)))
  /\ keys_ok (snd (create_admin sample_digest sample_method sample_env
                     (as_user None sample_db))).
Proof.
  apply (keys_stay_unique sample_digest sample_method url_register
           (mkRequest POST None None
              [("username", "u2"); ("email", "b@x.com");
               ("password", "pw2"); ("confirm_password", "pw2")])
           sample_env (as_user None sample_db) sample_keys_ok).
Defined.

(** ** What a request can change *)

Lemma accounts_update_last_login (user : User.t) (now : Z) (w : World) :
  accounts (db (snd (update_last_login user now w))) = accounts (db w).
Proof.
  unfold update_last_login, accounts. run_app. simpl. rewrite map_map.
  apply map_ext. intros x. destruct (User.id x =? User.id user); reflexivity.
Qed.

Lemma add_user_cases (un em : option string) (pw : string)
    (fn ln : option string) (now : Z) (w : World) :
  add_user un em pw fn ln now w = (Abort 500, w)
  \/ exists u e,
       un = Some u /\ em = Some e
       /\ add_user un em pw fn ln now w
          = (Ok tt,
             with_user w
               (User.mk (next_id (map User.id (Db.users (db w)))) u e pw fn ln
                        false 0 now None)).
Proof.
  unfold add_user. run_app.
  destruct un as [u|]; [|now left]. destruct em as [e|]; [|now left].
  destruct (_ || _); [now left|].
  right. exists u, e. repeat split.
Qed.

Lemma accounts_same_update (w0 : World) (u : User.t) (now : Z) :
  preserves (accounts_same w0) (update_last_login u now).
Proof.
  intros w H. unfold accounts_same. rewrite accounts_update_last_login. exact H.
Qed.

Lemma accounts_same_add_product (w0 : World) (n d pr c : option string)
    (a : bool) (now : Z) :
  preserves (accounts_same w0) (add_product n d pr c a now).
Proof.
  intros w H.
  destruct (add_product_cases n d pr c a now w)
    as [[s E]|[name [ptext [q [_ [_ [_ E]]]]]]]; rewrite E; exact H.
Qed.

Lemma accounts_grow_add_user (w0 : World) (un em : option string) (pw : string)
    (fn ln : option string) (now : Z) :
  preserves (accounts_grow w0) (add_user un em pw fn ln now).
Proof.
  intros w [extra [He Hf]].
  destruct (add_user_cases un em pw fn ln now w) as [E|[u [e [_ [_ E]]]]];
    rewrite E; simpl.
  - exists extra. auto.
  - eexists (extra ++ [_]). split.
    + unfold accounts in *. simpl. rewrite map_app, He, <- app_assoc. reflexivity.
    + apply Forall_app. split; [exact Hf | repeat constructor].
Qed.

(** X2. No request deletes a user or changes a user's id, username,
    email, password or admin flag, and none adds an admin: after a
    request to any route the accounts are the former ones, in their
    order, followed only by rows that are not admins, and by none unless
    the route is the register route. *)
Theorem requests_keep_accounts
    (hash_internal : string -> string -> string -> option string)
    (default_method : string) (r : Route) (req : Request) (env : Env) (w : World) :
  exists extra,
    accounts (db (snd (dispatch hash_internal default_method r req env w)))
    = accounts (db w) ++ extra
    /\ Forall (fun u => User.is_admin u = false) extra
    /\ (r <> url_register -> extra = []).
Proof.
  assert (Hflash : forall m c, preserves (accounts_same w) (flash m c))
    by (intros m c w' H; exact H).
  assert (Hsess : forall s, preserves (accounts_same w) (set_session s))
    by (intros s w' H; exact H).
  assert (Hsame : r <> url_register ->
            accounts_same w (snd (dispatch hash_internal default_method r req env w))).
  { intros Hr. unfold dispatch.
    destruct (method req), (accepts_post r), r;
      first
        [ exfalso; apply Hr; reflexivity
        | apply (preserves_abort (accounts_same w)); reflexivity
        | apply (kept_index (accounts_same w)); reflexivity
        | apply (kept_products (accounts_same w)); reflexivity
        | apply (kept_product_detail (accounts_same w)); reflexivity
        | apply (kept_login hash_internal (accounts_same w) Hflash Hsess
                   (accounts_same_update w)); reflexivity
        | apply (kept_logout (accounts_same w) Hsess); reflexivity
        | apply (kept_admin_view (accounts_same w) Hflash
                   (accounts_same_add_product w)); reflexivity ]. }
  destruct r;
    try (exists []; rewrite app_nil_r;
         split; [apply Hsame; discriminate | split; [constructor | reflexivity]]).
  (* the register route *)
  assert (Hg : accounts_grow w
                 (snd (dispatch hash_internal default_method url_register req env w))).
  { unfold dispatch. destruct (method req); simpl accepts_post; cbv iota;
      (apply (kept_register hash_internal default_method (accounts_grow w));
       [ intros m c w' H; exact H
       | apply accounts_grow_add_user
       | exists []; rewrite app_nil_r; split; [reflexivity | constructor] ]). }
  destruct Hg as [extra [He Hf]]. exists extra.
  split; [exact He|]. split; [exact Hf|]. intros Hr. exfalso. apply Hr. reflexivity.
Qed.

Lemma admin_session_cases (w : World) :
  admin_session w
  \/ Session.user_id (session w) = None
  \/ exists uid,
       Session.user_id (session w) = Some uid
       /\ forall u, User_get (db w) uid = Some u -> User.is_admin u = false.
Proof.
  destruct (Session.user_id (session w)) as [uid|] eqn:Hs; [|auto].
  destruct (User_get (db w) uid) as [u|] eqn:Hg.
  - destruct (User.is_admin u) eqn:Ha.
    + left. exists uid, u. auto.
    + right. right. exists uid. split; [reflexivity|].
      intros u' Hu'. congruence.
  - right. right. exists uid. split; [reflexivity | intros u' Hu'; congruence].
Qed.

Lemma admin_add_product_as_admin (req : Request) (env : Env) (w : World) :
  admin_session w ->
  method req = POST ->
  admin_add_product req env w
  = bind (add_product (form_get (form req) "name")
            (form_get (form req) "description") (form_get (form req) "price")
            (form_get (form req) "category_id") (submitted_is_active req)
            (utcnow env))
         (fun _ => bind (flash MSG_PRODUCT_ADDED "success")
                        (fun _ => ret (redirect ep_admin_products))) w.
Proof.
  intros [uid [u [Hs [Hg Ha]]]] Hm.
  unfold admin_add_product. unfold bind at 1. unfold get_session. cbv beta iota.
  rewrite Hs. unfold bind at 1. unfold get_db. cbv beta iota zeta.
  rewrite Hg. unfold not_admin. rewrite Ha. cbn [negb]. rewrite Hm. reflexivity.
Qed.

Lemma admin_add_product_outcomes (req : Request) (env : Env) (w : World) :
  admin_session w ->
  method req = POST ->
  (exists s, admin_add_product req env w = (Abort s, w))
  \/ (exists n ptext q,
        form_get (form req) "name" = Some n
        /\ form_get (form req) "price" = Some ptext
        /\ to_float ptext = Some q
        /\ admin_add_product req env w
           = (Ok (redirect ep_admin_products),
              with_flash (with_product w (submitted_product req env (db w) n q))
                         MSG_PRODUCT_ADDED "success")).
Proof.
  intros Hadm Hm. rewrite (admin_add_product_as_admin req env w Hadm Hm).
  destruct (add_product_cases (form_get (form req) "name")
              (form_get (form req) "description") (form_get (form req) "price")
              (form_get (form req) "category_id") (submitted_is_active req)
              (utcnow env) w)
    as [[s E]|[n [ptext [q [Hn [Hp [Hq E]]]]]]].
  - left. exists s. apply bind_abort, E.
  - right. exists n, ptext, q. repeat split; try assumption.
    rewrite (bind_ok _ _ _ _ _ E). reflexivity.
Qed.

(** X3. No request changes the Category table, and the Product table
    changes only through a POST to the add_product route from an admin's
    session, which appends one row carrying the submitted name. *)
Theorem only_admin_post_changes_catalog
    (hash_internal : string -> string -> string -> option string)
    (default_method : string) (r : Route) (req : Request) (env : Env) (w : World) :
  Db.categories (db (snd (dispatch hash_internal default_method r req env w)))
  = Db.categories (db w)
  /\ (Db.products (db (snd (dispatch hash_internal default_method r req env w)))
      = Db.products (db w)
      \/ (r = url_admin_area url_admin_add_product
          /\ method req = POST
          /\ admin_session w
          /\ exists p,
               Db.products (db (snd (dispatch hash_internal default_method r req env w)))
               = Db.products (db w) ++ [p]
               /\ Some (Product.name p) = form_get (form req) "name")).
Proof.
  assert (Hflash : forall m c, preserves (catalog_same w) (flash m c))
    by (intros m c w' H; exact H).
  assert (Hsess : forall s, preserves (catalog_same w) (set_session s))
    by (intros s w' H; exact H).
  assert (Hupd : forall u now, preserves (catalog_same w) (update_last_login u now)).
  { intros u now w' [Hc Hp]. split; simpl; assumption. }
  assert (Hadd : forall un em pw fn ln now,
            preserves (catalog_same w) (add_user un em pw fn ln now)).
  { intros un em pw fn ln now w' [Hc Hp].
    destruct (add_user_products un em pw fn ln now w') as [E1 E2].
    split; [rewrite E2 | rewrite E1]; assumption. }
  assert (Hrefl : catalog_same w w) by (split; reflexivity).
  assert (Hsame : catalog_same w
                    (snd (dispatch hash_internal default_method r req env w)) ->
            Db.categories (db (snd (dispatch hash_internal default_method r req env w)))
            = Db.categories (db w)
            /\ (Db.products (db (snd (dispatch hash_internal default_method r req env w)))
                = Db.products (db w)
                \/ (r = url_admin_area url_admin_add_product
                    /\ method req = POST
                    /\ admin_session w
                    /\ exists p,
                         Db.products
                           (db (snd (dispatch hash_internal default_method r req env w)))
                         = Db.products (db w) ++ [p]
                         /\ Some (Product.name p) = form_get (form req) "name"))).
  { intros [Hc Hp]. split; [exact Hc | left; exact Hp]. }
  destruct r as [| | pid | | | | a];
    try (apply Hsame; unfold dispatch;
         destruct (method req); simpl accepts_post; cbv iota;
         first
           [ apply (preserves_abort (catalog_same w)); exact Hrefl
           | apply (kept_index (catalog_same w)); exact Hrefl
           | apply (kept_products (catalog_same w)); exact Hrefl
           | apply (kept_product_detail (catalog_same w)); exact Hrefl
           | apply (kept_login hash_internal (catalog_same w) Hflash Hsess Hupd);
             exact Hrefl
           | apply (kept_register hash_internal default_method (catalog_same w)
                      Hflash Hadd); exact Hrefl
           | apply (kept_logout (catalog_same w) Hsess); exact Hrefl ]).
  (* the admin routes *)
  destruct a.
  - apply Hsame. unfold dispatch.
    destruct (method req); simpl accepts_post; cbv iota; simpl admin_view;
      [ apply (kept_admin_dashboard (catalog_same w) Hflash); exact Hrefl
      | apply (preserves_abort (catalog_same w)); exact Hrefl ].
  - apply Hsame. unfold dispatch.
    destruct (method req); simpl accepts_post; cbv iota; simpl admin_view;
      [ apply (kept_admin_products (catalog_same w) Hflash); exact Hrefl
      | apply (preserves_abort (catalog_same w)); exact Hrefl ].
  - assert (Hd : dispatch hash_internal default_method
                   (url_admin_area url_admin_add_product) req env w
                 = admin_add_product req env w)
      by (unfold dispatch; destruct (method req); reflexivity).
    rewrite Hd in Hsame |- *.
    destruct (admin_session_cases w) as [Hadm|[Hnone|[uid [Hs Hu]]]].
    + destruct (method req) eqn:Hm.
      * apply Hsame. destruct Hadm as [uid [u [Hs [Hg Ha]]]].
        unfold admin_add_product. run_app. rewrite Hs, Hg. unfold not_admin.
        rewrite Ha. cbn [negb]. rewrite Hm. exact Hrefl.
      * destruct (admin_add_product_outcomes req env w Hadm Hm)
          as [[s E]|[n [ptext [q [Hn [_ [_ E]]]]]]]; rewrite E.
        -- split; [reflexivity | left; reflexivity].
        -- split; [reflexivity|]. right. repeat split; try assumption.
           eexists. split; [reflexivity|]. simpl. symmetry. exact Hn.
    + apply Hsame.
      pose proof (admin_view_anonymous url_admin_add_product req env w Hnone) as E.
      simpl admin_view in E. rewrite E. exact Hrefl.
    + apply Hsame.
      pose proof (admin_view_denied url_admin_add_product req env w uid Hs Hu) as E.
      simpl admin_view in E. rewrite E. exact Hrefl.
Qed.

(** X4. The session changes only in two ways: [logout] empties it, and
    a login POST that finds a user with the submitted email whose stored
    password the check accepts puts that user's id in it and keeps the
    cart.  Every other request, registration included, leaves the session
    as it was. *)
Theorem only_login_and_logout_change_session
    (hash_internal : string -> string -> string -> option string)
    (default_method : string) (r : Route) (req : Request) (env : Env) (w : World) :
  session (snd (dispatch hash_internal default_method r req env w)) = session w
  \/ (r = url_logout
      /\ session (snd (dispatch hash_internal default_method r req env w))
         = Session.mk None None)
  \/ (r = url_login
      /\ method req = POST
      /\ exists u,
           In u (Db.users (db w))
           /\ Some (User.email u) = form_get (form req) "email"
           /\ fst (check_password_hash hash_internal (User.password u)
                     (form_get (form req) "password") w) = Ok true
           /\ session (snd (dispatch hash_internal default_method r req env w))
              = Session.mk (Some (User.id u)) (Session.cart (session w))).
Proof.
  assert (Hflash : forall m c, preserves (session_same w) (flash m c))
    by (intros m c w' H; exact H).
  assert (Hadd : forall un em pw fn ln now,
            preserves (session_same w) (add_user un em pw fn ln now)).
  { intros un em pw fn ln now w' H.
    destruct (add_user_cases un em pw fn ln now w') as [E|[u [e [_ [_ E]]]]];
      rewrite E; exact H. }
  assert (Hprod : forall n d pr c a now,
            preserves (session_same w) (add_product n d pr c a now)).
  { intros n d pr c a now w' H.
    destruct (add_product_cases n d pr c a now w')
      as [[s E]|[name [ptext [q [_ [_ [_ E]]]]]]]; rewrite E; exact H. }
  assert (Hrefl : session_same w w) by reflexivity.
  destruct r as [| | pid | | | | [| |]];
    try (left; unfold dispatch;
         destruct (method req); simpl accepts_post; cbv iota;
         first
           [ apply (preserves_abort (session_same w)); exact Hrefl
           | apply (kept_index (session_same w)); exact Hrefl
           | apply (kept_products (session_same w)); exact Hrefl
           | apply (kept_product_detail (session_same w)); exact Hrefl
           | apply (kept_register hash_internal default_method (session_same w)
                      Hflash Hadd); exact Hrefl
           | apply (kept_admin_view (session_same w) Hflash Hprod); exact Hrefl ]).
  - (* login *)
    unfold dispatch.
    destruct (method req) eqn:Hm; cbv beta iota delta [accepts_post].
    + left. unfold login. rewrite Hm. reflexivity.
    + rewrite (login_post hash_internal req env w Hm).
      destruct (User_filter_by_email (db w) (form_get (form req) "email"))
        as [u|] eqn:Hf; [|left; reflexivity].
      apply filter_by_email_some in Hf. destruct Hf as [Hin He].
      destruct (fst (check_password_hash hash_internal (User.password u)
                       (form_get (form req) "password") w))
        as [[|]|s] eqn:Hc; [|left; reflexivity|left; reflexivity].
      right. right. split; [reflexivity|]. split; [reflexivity|].
      exists u. repeat split; assumption.
  - (* logout *)
    unfold dispatch.
    destruct (method req); cbv beta iota delta [accepts_post].
    + right. left. split; reflexivity.
    + left. reflexivity.
Qed.

(** ** The admin pages *)

(** X5. A request to an admin route is answered with a rendered page
    exactly when it is a GET from a session whose user is an admin; the
    page is then the dashboard, the whole Product table, or the form with
    the whole Category table, and nothing changes. *)
Theorem admin_pages_exactly_for_admins
    (hash_internal : string -> string -> string -> option string)
    (default_method : string) (a : AdminRoute) (req : Request) (env : Env) (w : World) :
  ((exists p,
      fst (dispatch hash_internal default_method (url_admin_area a) req env w)
      = Ok (render_template p))
   <-> admin_session w /\ method req = GET)
  /\ (admin_session w -> method req = GET ->
      dispatch hash_internal default_method (url_admin_area a) req env w
      = (Ok (render_template
               match a with
               | url_admin => admin_dashboard_html
               | url_admin_products => admin_products_html (Db.products (db w))
               | url_admin_add_product => admin_add_product_html (Db.categories (db w))
               end),
         w)).
Proof.
  assert (Hget : admin_session w -> method req = GET ->
            dispatch hash_internal default_method (url_admin_area a) req env w
            = (Ok (render_template
                     match a with
                     | url_admin => admin_dashboard_html
                     | url_admin_products => admin_products_html (Db.products (db w))
                     | url_admin_add_product =>
                         admin_add_product_html (Db.categories (db w))
                     end),
               w)).
  { intros [uid [u [Hs [Hg Ha]]]] Hm. unfold dispatch. rewrite Hm.
    destruct a; simpl; admin_prefix; rewrite Hs, Hg; unfold not_admin;
      rewrite Ha; cbn [negb]; try rewrite Hm; reflexivity. }
  split; [|exact Hget]. split.
  - intros [p Hp].
    destruct (admin_session_cases w) as [Hadm|[Hnone|[uid [Hs Hu]]]].
    + split; [exact Hadm|].
      destruct (method req) eqn:Hm; [reflexivity|]. exfalso.
      unfold dispatch in Hp. rewrite Hm in Hp.
      destruct a; cbv beta iota delta [accepts_post admin_view] in Hp;
        try (unfold abort in Hp; discriminate Hp).
      destruct (admin_add_product_outcomes req env w Hadm Hm)
        as [[s E]|[n [ptext [q [_ [_ [_ E]]]]]]]; rewrite E in Hp; discriminate Hp.
    + exfalso. unfold dispatch in Hp.
      destruct (method req), a; cbv beta iota delta [accepts_post] in Hp;
        first
          [ rewrite (admin_view_anonymous _ req env w Hnone) in Hp; discriminate Hp
          | unfold abort in Hp; discriminate Hp ].
    + exfalso. unfold dispatch in Hp.
      destruct (method req), a; cbv beta iota delta [accepts_post] in Hp;
        first
          [ rewrite (admin_view_denied _ req env w uid Hs Hu) in Hp; discriminate Hp
          | unfold abort in Hp; discriminate Hp ].
  - intros [Hadm Hm]. rewrite (Hget Hadm Hm). eexists. reflexivity.
Qed.

(** ** Logging out *)

(** X6. Whatever the session held, [logout] empties it and changes
    nothing else; the cart count shown on the next page is 0, and the
    next request to an admin route is sent to the login page. *)
Theorem logout_ends_the_session
    (a : AdminRoute) (req : Request) (env : Env) (w : World) :
  logout w = (Ok (redirect ep_index),
              mkWorld (db w) (Session.mk None None) (flashes w))
  /\ fst (inject_cart_count (snd (logout w))) = Ok 0%nat
  /\ admin_view a req env (snd (logout w))
     = (Ok (redirect ep_login), snd (logout w)).
Proof.
  split; [reflexivity|]. split; [reflexivity|].
  apply admin_view_anonymous. reflexivity.
Qed.

(** ** Start-up *)

Lemma find_app_last {A} (f : A -> bool) (l : list A) (x : A) :
  (forall y, In y l -> f y = false) -> f x = true -> find f (l ++ [x]) = Some x.
Proof.
  intros Hl Hx. induction l as [|y l IH]; simpl.
  - rewrite Hx. reflexivity.
  - rewrite (Hl y (or_introl eq_refl)). apply IH.
    intros z Hz. apply Hl. now right.
Qed.

Lemma find_app_some {A} (f : A -> bool) (l : list A) (x y : A) :
  find f l = Some y -> find f (l ++ [x]) = Some y.
Proof.
  induction l as [|z l IH]; simpl; [discriminate|].
  destruct (f z); [auto | exact IH].
Qed.

Lemma existsb_none {A} (f : A -> bool) (l : list A) :
  (forall y, In y l -> f y = false) -> existsb f l = false.
Proof.
  intros H. destruct (existsb f l) eqn:E; [|reflexivity].
  apply existsb_exists in E. destruct E as [y [Hin Hy]].
  rewrite (H y Hin) in Hy. discriminate.
Qed.

Lemma filter_by_email_absent (d : Db.t) (e : string) :
  (forall u, In u (Db.users d) -> User.email u <> e) ->
  User_filter_by_email d (Some e) = None.
Proof.
  intros H. unfold User_filter_by_email.
  destruct (find _ (Db.users d)) as [u|] eqn:Hf; [|reflexivity].
  apply find_some in Hf. destruct Hf as [Hin He].
  apply String.eqb_eq in He. destruct (H u Hin He).
Qed.

Lemma filter_by_email_new (w : World) (u : User.t) :
  (forall v, In v (Db.users (db w)) -> User.email v <> User.email u) ->
  User_filter_by_email (db (with_user w u)) (Some (User.email u)) = Some u.
Proof.
  intros H. unfold User_filter_by_email, with_user. simpl.
  apply find_app_last.
  - intros v Hv. apply String.eqb_neq. apply H, Hv.
  - apply String.eqb_refl.
Qed.

Section StartUp.

Variable hash_internal : string -> string -> string -> option string.
Variable default_method : string.




(** X8. When no user has the administrator's address but one has the
    username "admin", start-up raises and stores nothing. *)
Theorem create_admin_fails_on_taken_username (env : Env) (w : World) :
  (forall u, In u (Db.users (db w)) -> User.email u <> "admin@example.com") ->
  (exists u, In u (Db.users (db w)) /\ User.username u = "admin") ->
  create_admin hash_internal default_method env w = (Abort 500, w).
Proof.
  intros Hmail [u [Hin Hname]].
  unfold create_admin, generate_password_hash, add_admin, raising. run_app.
  rewrite (filter_by_email_absent _ _ Hmail).
  destruct (hash_internal default_method (gen_salt (choice env) 16) "admin123");
    [|reflexivity].
  cbv beta iota.
  assert (Hex : existsb (fun r => String.eqb (User.username r) "admin")
                        (Db.users (db w)) = true).
  { apply existsb_exists. exists u. split; [exact Hin|].
    rewrite Hname. reflexivity. }
  rewrite Hex. reflexivity.
Qed.

Hypothesis default_method_plain : no_dollar default_method.

(** X9. On a User table where nobody has the administrator's address or
    the username "admin", start-up stores the administrator, and a login
    POST with the address and the password "admin123" is then answered
    with a redirect to the admin dashboard, the administrator's id in the
    session. *)
Theorem seeded_admin_logs_in_with_default_password
    (env env' : Env) (req : Request) (w : World) (digest : string) :
  (forall u, In u (Db.users (db w)) ->
             User.email u <> "admin@example.com" /\ User.username u <> "admin") ->
  hash_internal default_method (gen_salt (choice env) 16) "admin123" = Some digest ->
  method req = POST ->
  form_get (form req) "email" = Some "admin@example.com" ->
  form_get (form req) "password" = Some "admin123" ->
  exists admin w1,
    create_admin hash_internal default_method env w = (Ok tt, w1)
    /\ Db.users (db w1) = Db.users (db w) ++ [admin]
    /\ User.is_admin admin = true
    /\ login hash_internal req env' w1
       = (Ok (redirect ep_admin_dashboard), logged_in w1 admin (utcnow env'))
    /\ Session.user_id (session (snd (login hash_internal req env' w1)))
       = Some (User.id admin).
Proof.
  intros Hfree Hd Hm He Hp.
  set (admin := seeded_admin env (db w)
                  (join_pwhash default_method (gen_salt (choice env) 16) digest)).
  exists admin, (with_user w admin).
  assert (Hrun : create_admin hash_internal default_method env w
                 = (Ok tt, with_user w admin)).
  { unfold create_admin, generate_password_hash, add_admin, raising. run_app.
    rewrite (filter_by_email_absent (db w) "admin@example.com")
      by (intros u Hu; apply (Hfree u Hu)).
    rewrite Hd. cbv beta iota.
    rewrite (existsb_none (fun r => String.eqb (User.username r) "admin"))
      by (intros u Hu; apply String.eqb_neq, (Hfree u Hu)).
    rewrite (existsb_none (fun r => String.eqb (User.email r) "admin@example.com"))
      by (intros u Hu; apply String.eqb_neq, (Hfree u Hu)).
    reflexivity. }
  assert (Hlogin : login hash_internal req env' (with_user w admin)
                   = (Ok (redirect ep_admin_dashboard),
                      logged_in (with_user w admin) admin (utcnow env'))).
  { rewrite (login_post hash_internal req env' _ Hm). rewrite He, Hp.
    change "admin@example.com" with (User.email admin).
    rewrite (filter_by_email_new w admin)
      by (intros v Hv; apply (Hfree v Hv)).
    change (User.password admin)
      with (join_pwhash default_method (gen_salt (choice env) 16) digest).
    rewrite (generated_hash_checks hash_internal default_method default_method_plain
               _ _ _ _ (gen_salt_no_dollar _ _) Hd).
    reflexivity. }
  split; [exact Hrun|]. split; [reflexivity|]. split; [reflexivity|].
  split; [exact Hlogin|]. rewrite Hlogin. reflexivity.
Qed.

(** X10. A user who has just registered can log in: after a register
    POST that stored a user, a login POST with the same email and
    password is answered with a redirect to the home page, and the
    session holds the new user's id. *)
Theorem registered_user_logs_in
    (req req' : Request) (env env' : Env) (w : World) (un em pw digest : string) :
  method req = POST ->
  form_get (form req) "password" = form_get (form req) "confirm_password" ->
  ~ (exists u, In u (Db.users (db w))
               /\ takes (form_get (form req) "username")
                        (form_get (form req) "email") u) ->
  form_get (form req) "username" = Some un ->
  form_get (form req) "email" = Some em ->
  form_get (form req) "password" = Some pw ->
  hash_internal default_method (gen_salt (choice env) 16) pw = Some digest ->
  method req' = POST ->
  form_get (form req') "email" = Some em ->
  form_get (form req') "password" = Some pw ->
  exists u w1,
    register hash_internal default_method req env w = (Ok (redirect ep_login), w1)
    /\ In u (Db.users (db w1))
    /\ User.username u = un
    /\ User.email u = em
    /\ login hash_internal req' env' w1
       = (Ok (redirect ep_index), logged_in w1 u (utcnow env'))
    /\ Session.user_id (session (snd (login hash_internal req' env' w1)))
       = Some (User.id u).
Proof.
  intros Hm Hc Hfree Hun Hem Hpw Hd Hm' He' Hp'.
  set (u := registered_user req env (db w) un em
              (join_pwhash default_method (gen_salt (choice env) 16) digest)).
  set (w1 := with_flash (with_user w u) MSG_ACCOUNT_CREATED "success").
  exists u, w1.
  assert (Hreg : register hash_internal default_method req env w
                 = (Ok (redirect ep_login), w1))
    by (apply (register_stores hash_internal default_method req env w un em pw digest);
        assumption).
  assert (Hlogin : login hash_internal req' env' w1
                   = (Ok (redirect ep_index), logged_in w1 u (utcnow env'))).
  { rewrite (login_post hash_internal req' env' _ Hm'). rewrite He', Hp'.
    change (db w1) with (db (with_user w u)).
    change em with (User.email u) at 1.
    rewrite (filter_by_email_new w u).
    - change (User.password u)
        with (join_pwhash default_method (gen_salt (choice env) 16) digest).
      rewrite (generated_hash_checks hash_internal default_method default_method_plain
                 _ _ _ _ (gen_salt_no_dollar _ _) Hd).
      reflexivity.
    - intros v Hv Heq. apply Hfree. exists v. split; [exact Hv|].
      right. rewrite Hem. simpl in Heq. rewrite Heq. reflexivity. }
  split; [exact Hreg|].
  split; [simpl; apply in_or_app; right; left; reflexivity|].
  split; [reflexivity|]. split; [reflexivity|].
  split; [exact Hlogin|]. rewrite Hlogin. reflexivity.
Qed.

End StartUp.


Lemma create_admin_fails_on_taken_username_witness :
  create_admin sample_digest sample_method sample_env (as_user None squatter_db)
  = (Abort 500, as_user None squatter_db).
Proof.
  apply (create_admin_fails_on_taken_username sample_digest sample_method sample_env
           (as_user None squatter_db)).
  - intros u Hu. simpl in Hu. destruct Hu as [<-|[]]. discriminate.
  - eexists. split; [left; reflexivity | reflexivity].
Defined.

Lemma seeded_admin_logs_in_with_default_password_witness :
  exists admin w1,
    create_admin sample_digest sample_method sample_env (as_user None empty_db)
    = (Ok tt, w1)
    /\ Db.users (db w1) = Db.users (db (as_user None empty_db)) ++ [admin]
    /\ User.is_admin admin = true
    /\ login sample_digest
         (mkRequest POST None None
            [("email", "admin@example.com"); ("password", "admin123")])
         sample_env w1
       = (Ok (redirect ep_admin_dashboard), logged_in w1 admin (utcnow sample_env))
    /\ Session.user_id
         (session
            (snd (login sample_digest
                    (mkRequest POST None None
                       [("email", "admin@example.com"); ("password", "admin123")])
                    sample_env w1)))
       = Some (User.id admin).
Proof.
  apply (seeded_admin_logs_in_with_default_password sample_digest sample_method
           sample_method_plain sample_env sample_env
           (mkRequest POST None None
              [("email", "admin@example.com"); ("password", "admin123")])
           (as_user None empty_db)
           (gen_salt (choice sample_env) 16 ++ "admin123")%string).
  - intros u [].
  - reflexivity.
  - reflexivity.
  - reflexivity.
  - reflexivity.
Defined.

Lemma registered_user_logs_in_witness :
  exists u w1,
    register sample_digest sample_method
      (mkRequest POST None None
         [("username", "u2"); ("email", "b@x.com");
          ("password", "pw2"); ("confirm_password", "pw2")])
      sample_env (as_user None sample_db)
    = (Ok (redirect ep_login), w1)
    /\ In u (Db.users (db w1))
    /\ User.username u = "u2"
    /\ User.email u = "b@x.com"
    /\ login sample_digest
         (mkRequest POST None None [("email", "b@x.com"); ("password", "pw2")])
         sample_env w1
       = (Ok (redirect ep_index), logged_in w1 u (utcnow sample_env))
    /\ Session.user_id
         (session
            (snd (login sample_digest
                    (mkRequest POST None None
                       [("email", "b@x.com"); ("password", "pw2")])
                    sample_env w1)))
       = Some (User.id u).
Proof.
  apply (registered_user_logs_in sample_digest sample_method sample_method_plain
           (mkRequest POST None None
              [("username", "u2"); ("email", "b@x.com");
               ("password", "pw2"); ("confirm_password", "pw2")])
           (mkRequest POST None None [("email", "b@x.com"); ("password", "pw2")])
           sample_env sample_env (as_user None sample_db)
           "u2" "b@x.com" "pw2" (gen_salt (choice sample_env) 16 ++ "pw2")%string).
  - reflexivity.
  - reflexivity.
  - intros [u [Hin Ht]]. simpl in Hin.
    destruct Hin as [<-|[<-|[]]]; destruct Ht as [Ht|Ht]; discriminate Ht.
  - reflexivity.
  - reflexivity.
  - reflexivity.
  - reflexivity.
  - reflexivity.
  - reflexivity.
  - reflexivity.
Defined.

(** ** Pages of the products list *)

Lemma page_of_offset (i n : nat) :
  n <> 0%nat -> Z.to_nat (page_of i n - 1) = (i / n)%nat.
Proof. intros _. unfold page_of. lia. Qed.

Lemma page_items_nth (q : list Product.t) (i n : nat) :
  n <> 0%nat ->
  nth_error (page_items q (page_of i n) n) (i mod n) = nth_error q i.
Proof.
  intros Hn. unfold page_items. rewrite (page_of_offset i n Hn).
  rewrite nth_error_firstn.
  pose proof (Nat.mod_upper_bound i n Hn) as Hlt.
  apply Nat.ltb_lt in Hlt. rewrite Hlt.
  rewrite nth_error_skipn. f_equal.
  pose proof (Nat.div_mod_eq i n). lia.
Qed.

Lemma paginate_position (q : list Product.t) (params : list Z) (i n : nat)
    (p : Product.t) (w : World) :
  n <> 0%nat ->
  nth_error q i = Some p ->
  paginate q params (page_of i n) n w
  = (Ok (mkPagination (page_items q (page_of i n) n) (page_of i n) n (List.length q)),
     w)
  /\ nth_error (page_items q (page_of i n) n) (i mod n) = Some p.
Proof.
  intros Hn Hp.
  assert (Hnth : nth_error (page_items q (page_of i n) n) (i mod n) = Some p)
    by (rewrite page_items_nth; assumption).
  assert (Hsome : page_items q (page_of i n) n <> []).
  { intros Hnil. rewrite Hnil in Hnth. destruct (i mod n)%nat; discriminate. }
  split; [|exact Hnth].
  destruct (paginate_cases q params (page_of i n) n w)
    as [[_ Hbad]|[[_ [_ [Hnil _]]]|[Hok _]]]; [| |exact Hok].
  - exfalso. destruct Hbad as [Hlt|[_ [Hnil _]]].
    + unfold page_of in Hlt. lia.
    + exact (Hsome Hnil).
  - exfalso. exact (Hsome Hnil).
Qed.

(** X11. The products list shows every active product, at the place its
    position in the table gives it: the active product number i (from 0)
    is item i mod 12 of page i / 12 + 1, and that page exists.  With a
    category other than 0 that exists, the same holds for the active
    products of that category, under the category's title. *)
Theorem products_list_places_every_active_product
    (req : Request) (w : World) (i : nat) (p : Product.t) :
  arg_page req = Some (page_of i 12) ->
  (truthy (arg_category req) = None ->
   nth_error (filter Product.is_active (Db.products (db w))) i = Some p ->
   exists pg,
     products req w
     = (Ok (render_template (products_html pg ALL_PRODUCTS_TITLE)), w)
     /\ nth_error (items pg) (i mod 12) = Some p)
  /\ (forall c category,
        arg_category req = Some c -> c <> 0 ->
        Category_get (db w) c = Some category ->
        nth_error (filter (category_id_eq (Some (CInt c)))
                          (filter Product.is_active (Db.products (db w)))) i
        = Some p ->
        exists pg,
          products req w
          = (Ok (render_template
                   (products_html pg
                      (CATEGORY_TITLE_PREFIX ++ Category.name category)%string)),
             w)
          /\ nth_error (items pg) (i mod 12) = Some p).
Proof.
  intros Hpage.
  assert (Hreq : requested_page req = page_of i 12)
    by (unfold requested_page; rewrite Hpage; reflexivity).
  split.
  - intros Ht Hp. rewrite (products_unfiltered req w Ht), Hreq.
    destruct (paginate_position (active_products (db w)) [] i 12 p w) as [Hrun Hnth];
      [discriminate | exact Hp |].
    rewrite (bind_ok _ _ _ _ _ Hrun). eexists. split; [reflexivity | exact Hnth].
  - intros c category Harg Hc Hcat Hp.
    assert (Ht : truthy (arg_category req) = Some c) by (apply truthy_some; auto).
    rewrite (products_filtered req w c Ht), Hreq.
    destruct (paginate_position
                (filter (category_id_eq (Some (CInt c))) (active_products (db w)))
                [c] i 12 p w) as [Hrun Hnth]; [discriminate | exact Hp |].
    rewrite (bind_ok _ _ _ _ _ Hrun).
    unfold bind, get_or_404. rewrite Hcat. unfold ret.
    eexists. split; [reflexivity | exact Hnth].
Qed.

Lemma products_list_places_every_active_product_witness :
  exists pg,
    products (mkRequest GET None (Some (page_of 3 12)) []) (as_user None sample_db)
    = (Ok (render_template (products_html pg ALL_PRODUCTS_TITLE)),
       as_user None sample_db)
    /\ nth_error (items pg) (3 mod 12) = Some loose_item.
Proof.
  apply (proj1 (products_list_places_every_active_product
                  (mkRequest GET None (Some (page_of 3 12)) [])
                  (as_user None sample_db) 3 loose_item eq_refl));
    reflexivity.
Defined.

Lemma page_items_length_exact (q : list Product.t) (page : Z) (n : nat) :
  List.length (page_items q page n)
  = Nat.min n (List.length q - Z.to_nat (page - 1) * n).
Proof. unfold page_items. rewrite length_firstn, length_skipn. reflexivity. Qed.

(** X12. Without a category filter, over a table of fewer than 2^63
    active products (SQLite holds no more), the products list answers
    not-found exactly when the page number is below 1, or is above 1
    and the pages before it already hold every active product while the
    offset of the page, (page - 1) * 12, is an integer SQLite holds; it
    ends with status 500 exactly when the page number is at least 1 and
    that offset is 2^63 or more.  A page that is shown carries the number
    of active products as its total, and holds 12 items or, on the last
    page, what is left. *)
Theorem products_page_exists_within_bounds (req : Request) (w : World) :
  truthy (arg_category req) = None ->
  Z.of_nat (List.length (filter Product.is_active (Db.products (db w)))) < 2 ^ 63 ->
  (products req w = (Abort 404, w)
   <-> requested_page req < 1
       \/ (requested_page req <> 1
           /\ Z.of_nat (List.length (filter Product.is_active (Db.products (db w))))
              <= (requested_page req - 1) * 12
           /\ (requested_page req - 1) * 12 < 2 ^ 63))
  /\ (products req w = (Abort 500, w)
      <-> 1 <= requested_page req /\ 2 ^ 63 <= (requested_page req - 1) * 12)
  /\ (forall pg title,
        products req w = (Ok (render_template (products_html pg title)), w) ->
        total pg = List.length (filter Product.is_active (Db.products (db w)))
        /\ page pg = requested_page req
        /\ List.length (items pg)
           = Nat.min 12
               (List.length (filter Product.is_active (Db.products (db w)))
                - Z.to_nat (requested_page req - 1) * 12)).
Proof.
  intros Ht Hsmall. rewrite (products_unfiltered req w Ht).
  fold (active_products (db w)) in *.
  set (q := active_products (db w)) in *. set (N := requested_page req).
  pose proof (page_items_length_exact q N 12) as Hlen.
  assert (Hempty : 1 <= N ->
            (page_items q N 12 = [] <-> Z.of_nat (List.length q) <= (N - 1) * 12)).
  { intros HN. split.
    - intros Hnil. rewrite Hnil in Hlen. cbn [List.length] in Hlen. lia.
    - intros Hle. apply length_zero_iff_nil. lia. }
  assert (Hfits : forallb fits [(N - 1) * Z.of_nat 12] = true
                  <-> - 2 ^ 63 <= (N - 1) * 12 < 2 ^ 63).
  { cbn [forallb]. rewrite andb_true_r. apply fits_spec. }
  destruct (paginate_cases q [] N 12 w)
    as [[Hp Hwhy]|[[Hp [HN [Hnil Hbad]]]|[Hp [HN Hwhy]]]].
  - rewrite (bind_abort _ _ _ _ _ Hp). split; [|split].
    + split; [intros _|reflexivity].
      destruct Hwhy as [Hlt|[Hne [Hnil Hf]]]; [now left|].
      destruct (Z.lt_ge_cases N 1) as [Hlt|Hge]; [now left|].
      right. split; [exact Hne|]. split; [apply Hempty; assumption|].
      apply Hfits in Hf. lia.
    + split; [intros H; discriminate H|].
      intros [H1 Hbig]. exfalso.
      destruct Hwhy as [Hlt|[Hne [Hnil Hf]]]; [lia | apply Hfits in Hf; lia].
    + intros pg title H. discriminate H.
  - assert (Hbig : 2 ^ 63 <= (N - 1) * 12).
    { destruct (Z.lt_ge_cases ((N - 1) * 12) (2 ^ 63)) as [Hlt|Hge]; [|exact Hge].
      assert (Hf : forallb fits [(N - 1) * Z.of_nat 12] = true) by (apply Hfits; lia).
      rewrite Hf in Hbad. discriminate Hbad. }
    rewrite (bind_abort _ _ _ _ _ Hp). split; [|split].
    + split; [intros H; discriminate H|].
      intros [Hlt|[Hne [Hle Hlt]]]; lia.
    + split; [intros _; split; assumption | reflexivity].
    + intros pg title H. discriminate H.
  - rewrite (bind_ok _ _ _ _ _ Hp). unfold ret. split; [|split].
    + split; [intros H; discriminate H|].
      intros [Hlt|[Hne [Hle Hlt]]]; [lia|]. exfalso.
      destruct Hwhy as [Hnn|[Heq _]]; [|contradiction].
      apply Hnn, Hempty; assumption.
    + split; [intros H; discriminate H|].
      intros [H1 Hbig]. exfalso.
      destruct Hwhy as [Hnn|[Heq Hf]]; [|apply Hfits in Hf; lia].
      apply Hnn, Hempty; [assumption | lia].
    + intros pg title H. inversion H; subst. simpl.
      split; [reflexivity|]. split; [reflexivity|]. exact Hlen.
Qed.

Lemma products_page_exists_within_bounds_witness :
  (products (mkRequest GET None (Some 2) []) (as_user None sample_db)
   = (Abort 404, as_user None sample_db)
   <-> requested_page (mkRequest GET None (Some 2) []) < 1
       \/ (requested_page (mkRequest GET None (Some 2) []) <> 1
           /\ Z.of_nat (List.length (filter Product.is_active sample_products))
              <= (requested_page (mkRequest GET None (Some 2) []) - 1) * 12
           /\ (requested_page (mkRequest GET None (Some 2) []) - 1) * 12 < 2 ^ 63))
  /\ (products (mkRequest GET None (Some 768614336404564652) [])
        (as_user None sample_db)
      = (Abort 500, as_user None sample_db)
      <-> 1 <= requested_page (mkRequest GET None (Some 768614336404564652) [])
          /\ 2 ^ 63
             <= (requested_page (mkRequest GET None (Some 768614336404564652) []) - 1)
                * 12).
Proof.
  split.
  - apply (proj1 (products_page_exists_within_bounds
                    (mkRequest GET None (Some 2) []) (as_user None sample_db)
                    eq_refl eq_refl)).
  - apply (proj1 (proj2 (products_page_exists_within_bounds
                           (mkRequest GET None (Some 768614336404564652) [])
                           (as_user None sample_db) eq_refl eq_refl))).
Defined.

(** ** What the catalog shows of a product *)

Lemma Product_get_row (d : Db.t) (p : Product.t) :
  NoDup (map Product.id (Db.products d)) ->
  In p (Db.products d) ->
  Product_get d (Product.id p) = Some p.
Proof.
  intros Hnd Hin. unfold Product_get.
  destruct (find (fun x => Product.id x =? Product.id p) (Db.products d))
    as [p'|] eqn:Hf.
  - apply find_some in Hf. destruct Hf as [Hin' He]. apply Z.eqb_eq in He.
    f_equal. eapply NoDup_map_inj; eauto.
  - pose proof (find_none _ _ Hf p Hin) as Hn. simpl in Hn.
    rewrite Z.eqb_refl in Hn. discriminate.
Qed.

Lemma products_items_active (req : Request) (w w' : World) (pg : Pagination)
    (title : string) :
  products req w = (Ok (render_template (products_html pg title)), w') ->
  forall p, In p (items pg) -> Product.is_active p = true.
Proof.
  intros H p Hp.
  destruct (products_outcomes req w) as [E|[E|[[_ E]|[c [category [_ [_ E]]]]]]];
    rewrite E in H; inversion H; subst; cbn [items] in Hp;
    apply page_items_In in Hp.
  - unfold active_products in Hp. apply filter_In in Hp. apply Hp.
  - apply filter_In in Hp. destruct Hp as [Hp _].
    unfold active_products in Hp. apply filter_In in Hp. apply Hp.
Qed.

(** X13. With unique product ids, [product_detail] serves every row of
    the Product table under its id, active or not, and never lists the
    product among its own related products.  An inactive product is thus
    absent from the home page and from every page of the products list,
    yet its detail page is served. *)
Theorem product_detail_serves_inactive_products (w : World) (p : Product.t) :
  NoDup (map Product.id (Db.products (db w))) ->
  In p (Db.products (db w)) ->
  (exists related,
     product_detail (Product.id p) w
     = (Ok (render_template (product_detail_html p related)), w)
     /\ ~ In p related)
  /\ (Product.is_active p = false ->
      (forall featured categories w',
         index w = (Ok (render_template (index_html featured categories)), w') ->
         ~ In p featured)
      /\ (forall req pg title w',
            products req w = (Ok (render_template (products_html pg title)), w') ->
            ~ In p (items pg))).
Proof.
  intros Hnd Hin. split.
  - unfold product_detail. run_app. rewrite (Product_get_row _ _ Hnd Hin).
    cbv beta iota. eexists. split; [reflexivity|].
    intros Hrel.
    assert (Hf : In p (filter
                 (fun x => category_id_eq (Product.category_id p) x
                           && negb (Product.id x =? Product.id p)
                           && Product.is_active x)
                 (Db.products (db w)))).
    { rewrite <- (firstn_skipn 4 (filter _ _)). apply in_or_app. now left. }
    apply filter_In in Hf. destruct Hf as [_ Hb].
    rewrite Z.eqb_refl in Hb. simpl in Hb. rewrite andb_false_r in Hb.
    discriminate.
  - intros Hoff. split.
    + intros featured categories w' H Hp.
      unfold index in H. revert H. run_app. intros H.
      injection H as Hf _ _. rewrite <- Hf in Hp.
      assert (Hact : In p (active_products (db w))).
      { eapply Permutation_in; [apply order_by_created_at_desc_perm|].
        rewrite <- (firstn_skipn 8 (order_by_created_at_desc _)).
        apply in_or_app. left. exact Hp. }
      unfold active_products in Hact. apply filter_In in Hact.
      destruct Hact as [_ Hon]. congruence.
    + intros req pg title w' H Hp.
      pose proof (products_items_active req w w' pg title H p Hp). congruence.
Qed.

Lemma product_detail_serves_inactive_products_witness :
  exists related,
    product_detail (Product.id old_key) (as_user None sample_db)
    = (Ok (render_template (product_detail_html old_key related)),
       as_user None sample_db)
    /\ ~ In old_key related.
Proof.
  apply (proj1 (product_detail_serves_inactive_products
                  (as_user None sample_db) old_key
                  (proj2 sample_keys_ok)
                  (or_intror (or_intror (or_introl eq_refl))))).
Defined.

(** ** Adding a product *)

Lemma Product_get_new (w : World) (p : Product.t) :
  Product.id p = next_id (map Product.id (Db.products (db w))) ->
  Product_get (db (with_product w p)) (Product.id p) = Some p.
Proof.
  intros Hid. unfold Product_get, with_product. simpl.
  apply find_app_last; [|apply Z.eqb_refl].
  intros y Hy. apply Z.eqb_neq. intros Heq.
  apply (next_id_fresh (map Product.id (Db.products (db w)))).
  rewrite <- Hid, <- Heq. apply in_map, Hy.
Qed.

(** X14. A product added by an admin can be looked up at once.  Take a
    Product table whose ids are all below 2^63 - 1, the largest SQLite
    has.  After a POST to the add_product route that carries a name and
    a price written as a decimal number, the new product's id is above
    every id of the table, its price is the number written when a double
    holds it, [product_detail] under that id renders the new product,
    and, if it was submitted as active, it is the last of the active
    products in the products list. *)
Theorem added_product_is_found
    (req : Request) (env : Env) (w : World) (n ptext : string) (q : Q) :
  admin_session w ->
  (forall old, In old (Db.products (db w)) -> Product.id old < 2 ^ 63 - 1) ->
  method req = POST ->
  form_get (form req) "name" = Some n ->
  form_get (form req) "price" = Some ptext ->
  to_float ptext = Some q ->
  exists p w1 related,
    admin_add_product req env w = (Ok (redirect ep_admin_products), w1)
    /\ Product.name p = n
    /\ (double_holds q = true -> Product.price p = q)
    /\ (forall old, In old (Db.products (db w)) -> Product.id old < Product.id p)
    /\ product_detail (Product.id p) w1
       = (Ok (render_template (product_detail_html p related)), w1)
    /\ (submitted_is_active req = true ->
        nth_error (filter Product.is_active (Db.products (db w1)))
                  (List.length (filter Product.is_active (Db.products (db w))))
        = Some p).
Proof.
  intros Hadm _ Hm Hn Hp Hq.
  set (p := submitted_product req env (db w) n q).
  set (w1 := with_flash (with_product w p) MSG_PRODUCT_ADDED "success").
  exists p, w1. eexists.
  split; [eapply admin_add_product_post; eassumption|].
  split; [reflexivity|]. split; [intros _; reflexivity|].
  split.
  - intros old Hold. simpl.
    apply next_id_above, in_map, Hold.
  - split.
    + unfold product_detail. run_app.
      change (db w1) with (db (with_product w p)).
      rewrite (Product_get_new w p eq_refl). reflexivity.
    + intros Hact. change (db w1) with (db (with_product w p)).
      unfold with_product. simpl. rewrite filter_app. simpl.
      change (Product.is_active p) with (submitted_is_active req). rewrite Hact.
      rewrite nth_error_app2 by lia. rewrite Nat.sub_diag. reflexivity.
Qed.

Lemma added_product_is_found_witness :
  exists p w1 related,
    admin_add_product
      (mkRequest POST None None
         [("name", "Key"); ("price", "12.5"); ("is_active", "on")])
      sample_env (as_user (Some 1) sample_db)
    = (Ok (redirect ep_admin_products), w1)
    /\ Product.name p = "Key"
    /\ (double_holds (125 # 10) = true -> Product.price p = 125 # 10)
    /\ (forall old, In old (Db.products (db (as_user (Some 1) sample_db))) ->
                    Product.id old < Product.id p)
    /\ product_detail (Product.id p) w1
       = (Ok (render_template (product_detail_html p related)), w1)
    /\ (submitted_is_active
          (mkRequest POST None None
             [("name", "Key"); ("price", "12.5"); ("is_active", "on")]) = true ->
        nth_error (filter Product.is_active (Db.products (db w1)))
                  (List.length
                     (filter Product.is_active
                        (Db.products (db (as_user (Some 1) sample_db)))))
        = Some p).
Proof.
  apply (added_product_is_found
           (mkRequest POST None None
              [("name", "Key"); ("price", "12.5"); ("is_active", "on")])
           sample_env (as_user (Some 1) sample_db) "Key" "12.5" (125 # 10)).
  - exists 1, sample_admin. repeat split; reflexivity.
  - intros old Hold. simpl in Hold.
    repeat (destruct Hold as [<-|Hold]; [reflexivity|]). destruct Hold.
  - reflexivity.
  - reflexivity.
  - reflexivity.
  - reflexivity.
Defined.

(** X15. An admin's POST to the add_product route without a name, or
    without a price, ends with status 500: no product is stored and no
    message is flashed. *)
Theorem add_product_needs_name_and_price (req : Request) (env : Env) (w : World) :
  admin_session w ->
  method req = POST ->
  form_get (form req) "name" = None \/ form_get (form req) "price" = None ->
  admin_add_product req env w = (Abort 500, w).
Proof.
  intros Hadm Hm Hmiss.
  rewrite (admin_add_product_as_admin req env w Hadm Hm).
  apply bind_abort. unfold add_product. run_app.
  destruct Hmiss as [Hn|Hp].
  - rewrite Hn. reflexivity.
  - rewrite Hp. destruct (form_get (form req) "name"); reflexivity.
Qed.

Lemma add_product_needs_name_and_price_witness :
  admin_add_product (mkRequest POST None None [("name", "Key")]) sample_env
    (as_user (Some 1) sample_db)
  = (Abort 500, as_user (Some 1) sample_db).
Proof.
  apply (add_product_needs_name_and_price
           (mkRequest POST None None [("name", "Key")]) sample_env
           (as_user (Some 1) sample_db)).
  - exists 1, sample_admin. repeat split; reflexivity.
  - reflexivity.
  - right. reflexivity.
Defined.

(** ** Forms with missing fields *)

Section MissingFields.

Variable hash_internal : string -> string -> string -> option string.
Variable default_method : string.

(** X16. A register POST whose passwords agree and whose username and
    email nobody has, but which lacks the username, the email or the
    password, ends with status 500: no user is stored and no message is
    flashed. *)
Theorem register_needs_username_email_password
    (req : Request) (env : Env) (w : World) :
  method req = POST ->
  form_get (form req) "password" = form_get (form req) "confirm_password" ->
  ~ (exists u, In u (Db.users (db w))
               /\ takes (form_get (form req) "username")
                        (form_get (form req) "email") u) ->
  form_get (form req) "username" = None
  \/ form_get (form req) "email" = None
  \/ form_get (form req) "password" = None ->
  register hash_internal default_method req env w = (Abort 500, w).
Proof.
  intros Hm He Hfree Hmiss. unfold register. rewrite Hm.
  cbv zeta. rewrite (passwords_agree _ _ He).
  unfold bind at 1. unfold get_db. cbv beta iota.
  rewrite (existing_user_none _ _ _ Hfree).
  unfold generate_password_hash, add_user, raising.
  destruct (form_get (form req) "password") as [pw|]; [|reflexivity].
  run_app.
  destruct (hash_internal default_method (gen_salt (choice env) 16) pw);
    [|reflexivity].
  cbv beta iota.
  destruct (form_get (form req) "username") as [un|]; [|reflexivity].
  destruct (form_get (form req) "email") as [em|]; [|reflexivity].
  destruct Hmiss as [H|[H|H]]; discriminate H.
Qed.

(** X17. A login POST without a password field is answered with the
    invalid-credentials page when no user has the email, but ends with
    status 500 when a user has it and that user's stored password has the
    form of a hash: the check raises on the missing password. *)
Theorem login_without_password (req : Request) (env : Env) (w : World) :
  method req = POST ->
  form_get (form req) "password" = None ->
  ((forall u, In u (Db.users (db w)) ->
              Some (User.email u) <> form_get (form req) "email") ->
   login hash_internal req env w
   = (Ok (render_template login_html),
      with_flash w MSG_INVALID_CREDENTIALS "danger"))
  /\ (forall u method salt hashval,
        User_filter_by_email (db w) (form_get (form req) "email") = Some u ->
        split_pwhash (User.password u) = Some (method, salt, hashval) ->
        login hash_internal req env w = (Abort 500, w)).
Proof.
  intros Hm Hp. rewrite (login_post hash_internal req env w Hm). split.
  - intros Hnone.
    destruct (User_filter_by_email (db w) (form_get (form req) "email"))
      as [u|] eqn:Hf; [|reflexivity].
    apply filter_by_email_some in Hf. destruct Hf as [Hin He].
    destruct (Hnone u Hin He).
  - intros u m s h Hf Hsplit. rewrite Hf, Hp.
    unfold check_password_hash. rewrite Hsplit. reflexivity.
Qed.

End MissingFields.

Lemma register_needs_username_email_password_witness :
  register sample_digest sample_method
    (mkRequest POST None None
       [("username", "u3"); ("password", "pw"); ("confirm_password", "pw")])
    sample_env (as_user None sample_db)
  = (Abort 500, as_user None sample_db).
Proof.
  apply (register_needs_username_email_password sample_digest sample_method
           (mkRequest POST None None
              [("username", "u3"); ("password", "pw"); ("confirm_password", "pw")])
           sample_env (as_user None sample_db)).
  - reflexivity.
  - reflexivity.
  - intros [u [Hin Ht]]. simpl in Hin.
    destruct Hin as [<-|[<-|[]]]; destruct Ht as [Ht|Ht]; discriminate Ht.
  - right. left. reflexivity.
Defined.

Lemma login_without_password_witness :
  login sample_digest (mkRequest POST None None [("email", "a@x.com")]) sample_env
    (as_user None sample_db)
  = (Abort 500, as_user None sample_db).
Proof.
  apply (proj2 (login_without_password sample_digest
                  (mkRequest POST None None [("email", "a@x.com")]) sample_env
                  (as_user None sample_db) eq_refl eq_refl)
           sample_customer sample_method "abcdefghijklmnop" "abcdefghijklmnoppw1");
    reflexivity.
Defined.
